(** * Hydrawise cloud client (pydrawise/client.py)

    A shallow embedding of the [Hydrawise] class: every method is a
    one-shot request/response translation.  The collaborators (the auth
    helper, the GraphQL session, the schema helpers) are outside the
    file; they are modelled as an environment of oracles and as a
    [Schema] interface, and every call leaves a trace of the
    interactions it had with them. *)

From stdpp Require Import gmap strings list fin_maps pretty.
From Stdlib Require Import ZArith.

Set Warnings "-register-all".

Open Scope Z_scope.
Open Scope string_scope.

(** ** JSON-like Python values

    What [session.execute] hands back and what keyword arguments carry:
    [None], [bool], [int], [str], [list] and [dict] with string keys.
    Numbers are the unbounded Python [int]. *)

Inductive jval : Type :=
| JNone
| JBool (b : bool)
| JInt (n : Z)
| JStr (s : string)
| JList (l : list jval)
| JDict (d : gmap string jval).

(** [isinstance(v, dict)] *)
Definition isinstance_dict (v : jval) : bool :=
  match v with JDict _ => true | _ => false end.

(** Python truth value, as [not v] uses it. *)
Definition truthy (v : jval) : bool :=
  match v with
  | JNone => false
  | JBool b => b
  | JInt n => negb (Z.eqb n 0)
  | JStr s => negb (String.eqb s "")
  | JList l => match l with [] => false | _ => true end
  | JDict d => negb (bool_decide (d = ∅))
  end.

(** [v in ("OK", "WARNING")]: only a [str] compares equal to a [str]. *)
Definition in_ok_warning (v : jval) : bool :=
  match v with
  | JStr s => String.eqb s "OK" || String.eqb s "WARNING"
  | _ => false
  end.

(** ** Exceptions and results

    [MutationError] is the client's own exception class
    ([exceptions.py]); raised bare it has no argument, raised with the
    summary it has that one.  [KeyError] and [TypeError] come from
    subscripting; everything a collaborator raises is [Foreign]. *)

Inductive exn : Type :=
| MutationError (args : list jval)   (* the positional arguments given *)
| KeyError (key : string)
| TypeError
| Foreign (name : string).           (* raised by a collaborator *)

Inductive res (A : Type) : Type :=
| Ok (a : A)
| Raise (e : exn).
Arguments Ok {A} a.
Arguments Raise {A} e.

(** [v[key]] with a string key. *)
Definition getitem (v : jval) (key : string) : res jval :=
  match v with
  | JDict d => match d !! key with
               | Some x => Ok x
               | None => Raise (KeyError key)
               end
  | _ => Raise TypeError
  end.

(** ** The GraphQL DSL objects the client builds

    A field of [DSL_SCHEMA] with its keyword arguments and its
    sub-selection.  The fields and argument names the client uses are
    taken to exist in the schema; whether the argument values can be
    serialized is settled apart, by [serializable] further down. *)

Inductive DSLField : Type :=
  mkField { name : string;
            args : gmap string jval;
            selection : list DSLField }.

Inductive OperationType := DSLQuery | DSLMutation.

(** [dsl_gql(DSLQuery(selector))] / [dsl_gql(DSLMutation(selector))] *)
Record Document := dsl_gql { operation : OperationType; root : DSLField }.

Definition API_URL : string := "https://app.hydrawise.com/api/v2/graph".

Record Transport := AIOHTTPTransport
  { url : string; headers : gmap string string }.

(** [Client(transport=..., parse_results=True)] entered as a session;
    [sid] is the identity of the freshly allocated object. *)
Record Session := mkSession { sid : nat; transport : Transport }.

(** What goes on the wire for one [session.execute]. *)
Record Request := mkRequest
  { req_url : string; req_headers : gmap string string; req_doc : Document }.

Definition Auth := nat.   (* reference to the auth collaborator *)

Inductive Event : Type :=
| ETokenCall (a : Auth) (r : res string)   (* await auth.token() *)
| EOpen (s : Session)                      (* __aenter__ *)
| ESend (s : nat) (q : Request) (r : res jval)
| EClose (s : nat).                        (* __aexit__ *)

(** ** The client object and the world around it *)

Record Hydrawise := __init__ { _auth : Auth }.

(** The collaborators' behaviour: each answer may depend on everything
    that happened before. *)
Record Env := mkEnv
  { auth_token : Auth -> list Event -> res string;
    session_execute : list Event -> Request -> res jval }.

Record State := mkState
  { self : Hydrawise;
    trace : list Event;
    next_session : nat }.

Definition M (A : Type) : Type := Env -> State -> res A * State.

Definition ret {A} (a : A) : M A := fun _ st => (Ok a, st).
Definition raise {A} (e : exn) : M A := fun _ st => (Raise e, st).
Definition bind {A B} (m : M A) (k : A -> M B) : M B :=
  fun env st =>
    match m env st with
    | (Ok a, st') => k a env st'
    | (Raise e, st') => (Raise e, st')
    end.
Definition lift {A} (r : res A) : M A := fun _ st => (r, st).

Declare Scope py_scope.
Delimit Scope py_scope with py.
Notation "x <- m ;; k" := (bind m (fun x => k))
  (at level 100, m at next level, right associativity) : py_scope.
Open Scope py_scope.

(** [await self._auth.token()] *)
Definition token : M string :=
  fun env st =>
    let a := _auth (self st) in
    let r := auth_token env a (trace st) in
    (r, mkState (self st) (trace st ++ [ETokenCall a r]) (next_session st)).

(** [session.execute(doc)] *)
Definition execute (s : Session) (doc : Document) : M jval :=
  fun env st =>
    let q := mkRequest (url (transport s)) (headers (transport s)) doc in
    let r := session_execute env (trace st) q in
    (r, mkState (self st) (trace st ++ [ESend (sid s) q r]) (next_session st)).

(** [async with c as session: body]: the session is closed whether the
    body returns or raises.  Entering builds the client object around the
    transport and leaving closes it; neither talks to the server, and
    they are taken not to raise. *)
Definition async_with {A} (c : Transport) (body : Session -> M A) : M A :=
  fun env st =>
    let s := mkSession (next_session st) c in
    let st1 := mkState (self st) (trace st ++ [EOpen s]) (S (next_session st)) in
    let '(r, st2) := body s env st1 in
    (r, mkState (self st2) (trace st2 ++ [EClose (sid s)]) (next_session st2)).

(** ** Reading a run

    The requests a trace put on the wire, and what a call added to the
    trace. *)

Definition sent (tr : list Event) : list Request :=
  omap (fun e => match e with ESend _ q _ => Some q | _ => None end) tr.

Definition opened (tr : list Event) : list nat :=
  omap (fun e => match e with EOpen s => Some (sid s) | _ => None end) tr.

Definition closed (tr : list Event) : list nat :=
  omap (fun e => match e with EClose s => Some s | _ => None end) tr.

Definition token_calls (tr : list Event) : list (res string) :=
  omap (fun e => match e with ETokenCall _ r => Some r | _ => None end) tr.

Definition added (before after : State) : list Event :=
  drop (length (trace before)) (trace after).

(** What the collaborators answer to a call made in state [st]. *)
Definition token_now (env : Env) (st : State) : res string :=
  auth_token env (_auth (self st)) (trace st).

Definition session_for (st : State) (t : string) : Session :=
  mkSession (next_session st)
    (AIOHTTPTransport API_URL {[ "Authorization" := t ]}).

Definition request_for (t : string) (doc : Document) : Request :=
  mkRequest API_URL {[ "Authorization" := t ]} doc.

Definition answer_now (env : Env) (st : State) (t : string) (doc : Document)
    : res jval :=
  session_execute env
    (trace st ++ [ETokenCall (_auth (self st)) (Ok t); EOpen (session_for st t)])
    (request_for t doc).

(** The state a request for [doc] made in [st] leads to: the token is
    asked for, and if there is one a session is opened, used once and
    closed. *)
Definition ran (env : Env) (st : State) (doc : Document) : State :=
  match token_now env st with
  | Ok t =>
      mkState (self st)
        (trace st ++
           [ETokenCall (_auth (self st)) (Ok t);
            EOpen (session_for st t);
            ESend (next_session st) (request_for t doc)
              (answer_now env st t doc);
            EClose (next_session st)])
        (S (next_session st))
  | Raise e =>
      mkState (self st)
        (trace st ++ [ETokenCall (_auth (self st)) (Raise e)])
        (next_session st)
  end.

(** ** Methods *)

Definition _client : M Transport :=
  t <- token ;;
  ret (AIOHTTPTransport API_URL {[ "Authorization" := t ]}).

Definition _query (selector : DSLField) : M jval :=
  c <- _client ;;
  async_with c (fun session => execute session (dsl_gql DSLQuery selector)).

Definition _mutation (selector : DSLField) : M unit :=
  c <- _client ;;
  async_with c (fun session =>
    result <- execute session (dsl_gql DSLMutation selector) ;;
    resp <- lift (getitem result (name selector)) ;;
    if isinstance_dict resp then
      status <- lift (getitem resp "status") ;;
      if negb (in_ok_warning status) then
        summary <- lift (getitem resp "summary") ;;
        raise (MutationError [summary])
      else ret tt
    else if negb (truthy resp) then
      raise (MutationError [])
    else ret tt).

(** ** The schema module, as the client sees it

    [schema.py] and [schema_utils.py] supply the record types, the field
    lists to request and the deserializer; the client reads nothing of a
    record but its [id]. *)

Inductive pytype : Type :=
| TUser | TController | TZone | TStatusCodeAndSummary
| TList (t : pytype).

(** [DateTime.to_json] returns an object whose [value] is the wire text. *)
Record DateTimeJson := mkDateTimeJson { value : string }.

Class Schema := mkSchema
  { User : Type;
    Controller : Type;
    Zone : Type;
    ZoneSuspension : Type;
    StatusCodeAndSummary : Type;
    datetime : Type;
    controller_id : Controller -> Z;
    zone_id : Zone -> Z;
    suspension_id : ZoneSuspension -> Z;
    get_selectors : pytype -> list DSLField;
    DateTime_to_json : datetime -> DateTimeJson;
    interp : pytype -> Type :=
      fix interp t :=
        match t with
        | TUser => User
        | TController => Controller
        | TZone => Zone
        | TStatusCodeAndSummary => StatusCodeAndSummary
        | TList t' => list (interp t')
        end;
    deserialize : forall t : pytype, jval -> res (interp t) }.

Section Client.
Context `{Sch : Schema}.

(** [DSL_SCHEMA.<Type>.<field>], [.args] with keyword arguments (or a
    call), and [.select] *)
Definition field (n : string) : DSLField := mkField n ∅ [].
Definition with_args (f : DSLField) (kw : gmap string jval) : DSLField :=
  mkField (name f) (kw ∪ args f) (selection f).
Definition select (f : DSLField) (sel : list DSLField) : DSLField :=
  mkField (name f) (args f) (selection f ++ sel).

(** *** Queries *)

Definition get_user_selector : DSLField :=
  select (field "me") (get_selectors TUser).

Definition get_user : M User :=
  result <- _query get_user_selector ;;
  me <- lift (getitem result "me") ;;
  lift (deserialize TUser me).

Definition get_controllers_selector : DSLField :=
  select (field "me")
    [select (field "controllers") (get_selectors TController)].

Definition get_controllers : M (list Controller) :=
  result <- _query get_controllers_selector ;;
  me <- lift (getitem result "me") ;;
  controllers <- lift (getitem me "controllers") ;;
  lift (deserialize (TList TController) controllers).

Definition get_controller_selector (controller_id : Z) : DSLField :=
  select
    (with_args (field "controller")
       {[ "controllerId" := JInt controller_id ]})
    (get_selectors TController).

Definition get_controller (controller_id : Z) : M Controller :=
  result <- _query (get_controller_selector controller_id) ;;
  c <- lift (getitem result "controller") ;;
  lift (deserialize TController c).

Definition get_zones_selector (controller : Controller) : DSLField :=
  select
    (with_args (field "controller")
       {[ "controllerId" := JInt (controller_id controller) ]})
    [select (field "zones") (get_selectors TZone)].

Definition get_zones (controller : Controller) : M (list Zone) :=
  result <- _query (get_zones_selector controller) ;;
  c <- lift (getitem result "controller") ;;
  zones <- lift (getitem c "zones") ;;
  lift (deserialize (TList TZone) zones).

Definition get_zone_selector (zone_id : Z) : DSLField :=
  select (with_args (field "zone") {[ "zoneId" := JInt zone_id ]})
    (get_selectors TZone).

Definition get_zone (zone_id : Z) : M Zone :=
  result <- _query (get_zone_selector zone_id) ;;
  z <- lift (getitem result "zone") ;;
  lift (deserialize TZone z).

(** *** Mutations

    Each method builds its selector and hands it to [_mutation]; the
    selector is kept as a definition of its own so that the request
    can be talked about. *)

Definition status_selection : list DSLField :=
  get_selectors TStatusCodeAndSummary.

Definition start_zone_kwargs (zone : Zone) (mark_run_as_scheduled : bool)
    (custom_run_duration : Z) (stack_runs : bool) : gmap string jval :=
  let kwargs : gmap string jval :=
    {[ "zoneId" := JInt (zone_id zone);
       "markRunAsScheduled" := JBool mark_run_as_scheduled;
       "stackRuns" := JBool stack_runs ]} in
  if (custom_run_duration >? 0)%Z
  then <[ "customRunDuration" := JInt custom_run_duration ]> kwargs
  else kwargs.

Definition start_zone_selector zone mark_run_as_scheduled
    custom_run_duration stack_runs : DSLField :=
  select
    (with_args (field "startZone")
       (start_zone_kwargs zone mark_run_as_scheduled
          custom_run_duration stack_runs))
    status_selection.

Definition start_zone (zone : Zone) (mark_run_as_scheduled : bool)
    (custom_run_duration : Z) (stack_runs : bool) : M unit :=
  _mutation (start_zone_selector zone mark_run_as_scheduled
               custom_run_duration stack_runs).

Definition stop_zone_selector (zone : Zone) : DSLField :=
  select (with_args (field "stopZone") {[ "zoneId" := JInt (zone_id zone) ]})
    status_selection.

Definition stop_zone (zone : Zone) : M unit :=
  _mutation (stop_zone_selector zone).

Definition start_all_zones_kwargs (controller : Controller)
    (mark_run_as_scheduled : bool) (custom_run_duration : Z)
    : gmap string jval :=
  let kwargs : gmap string jval :=
    {[ "controllerId" := JInt (controller_id controller);
       "markRunAsScheduled" := JBool mark_run_as_scheduled ]} in
  if (custom_run_duration >? 0)%Z
  then <[ "customRunDuration" := JInt custom_run_duration ]> kwargs
  else kwargs.

Definition start_all_zones_selector controller mark_run_as_scheduled
    custom_run_duration : DSLField :=
  select
    (with_args (field "startAllZones")
       (start_all_zones_kwargs controller mark_run_as_scheduled
          custom_run_duration))
    status_selection.

Definition start_all_zones (controller : Controller)
    (mark_run_as_scheduled : bool) (custom_run_duration : Z) : M unit :=
  _mutation (start_all_zones_selector controller mark_run_as_scheduled
               custom_run_duration).

Definition stop_all_zones_selector (controller : Controller) : DSLField :=
  select
    (with_args (field "stopAllZones")
       {[ "controllerId" := JInt (controller_id controller) ]})
    status_selection.

Definition stop_all_zones (controller : Controller) : M unit :=
  _mutation (stop_all_zones_selector controller).

Definition suspend_zone_selector (zone : Zone) (until : datetime)
    : DSLField :=
  select
    (with_args (field "suspendZone")
       {[ "zoneId" := JInt (zone_id zone);
          "until" := JStr (value (DateTime_to_json until)) ]})
    status_selection.

Definition suspend_zone (zone : Zone) (until : datetime) : M unit :=
  _mutation (suspend_zone_selector zone until).

Definition resume_zone_selector (zone : Zone) : DSLField :=
  select
    (with_args (field "resumeZone") {[ "zoneId" := JInt (zone_id zone) ]})
    status_selection.

Definition resume_zone (zone : Zone) : M unit :=
  _mutation (resume_zone_selector zone).

Definition suspend_all_zones_selector (controller : Controller)
    (until : datetime) : DSLField :=
  select
    (with_args (field "suspendAllZones")
       {[ "controllerId" := JInt (controller_id controller);
          "until" := JStr (value (DateTime_to_json until)) ]})
    status_selection.

Definition suspend_all_zones (controller : Controller) (until : datetime)
    : M unit :=
  _mutation (suspend_all_zones_selector controller until).

Definition resume_all_zones_selector (controller : Controller) : DSLField :=
  select
    (with_args (field "resumeAllZones")
       {[ "controllerId" := JInt (controller_id controller) ]})
    status_selection.

Definition resume_all_zones (controller : Controller) : M unit :=
  _mutation (resume_all_zones_selector controller).

Definition delete_zone_suspension_selector (suspension : ZoneSuspension)
    : DSLField :=
  select
    (with_args (field "deleteZoneSuspension")
       {[ "id" := JInt (suspension_id suspension) ]})
    [].

Definition delete_zone_suspension (suspension : ZoneSuspension) : M unit :=
  _mutation (delete_zone_suspension_selector suspension).

(** *** The calls a user can make *)

Inductive MutationCall : Type :=
| CStartZone (zone : Zone) (mark_run_as_scheduled : bool)
    (custom_run_duration : Z) (stack_runs : bool)
| CStopZone (zone : Zone)
| CStartAllZones (controller : Controller) (mark_run_as_scheduled : bool)
    (custom_run_duration : Z)
| CStopAllZones (controller : Controller)
| CSuspendZone (zone : Zone) (until : datetime)
| CResumeZone (zone : Zone)
| CSuspendAllZones (controller : Controller) (until : datetime)
| CResumeAllZones (controller : Controller)
| CDeleteZoneSuspension (suspension : ZoneSuspension).

Definition mutation_selector (c : MutationCall) : DSLField :=
  match c with
  | CStartZone z m d s => start_zone_selector z m d s
  | CStopZone z => stop_zone_selector z
  | CStartAllZones c m d => start_all_zones_selector c m d
  | CStopAllZones c => stop_all_zones_selector c
  | CSuspendZone z u => suspend_zone_selector z u
  | CResumeZone z => resume_zone_selector z
  | CSuspendAllZones c u => suspend_all_zones_selector c u
  | CResumeAllZones c => resume_all_zones_selector c
  | CDeleteZoneSuspension s => delete_zone_suspension_selector s
  end.

Definition call_mutation (c : MutationCall) : M unit :=
  match c with
  | CStartZone z m d s => start_zone z m d s
  | CStopZone z => stop_zone z
  | CStartAllZones c m d => start_all_zones c m d
  | CStopAllZones c => stop_all_zones c
  | CSuspendZone z u => suspend_zone z u
  | CResumeZone z => resume_zone z
  | CSuspendAllZones c u => suspend_all_zones c u
  | CResumeAllZones c => resume_all_zones c
  | CDeleteZoneSuspension s => delete_zone_suspension s
  end.

Inductive QueryCall : pytype -> Type :=
| CGetUser : QueryCall TUser
| CGetControllers : QueryCall (TList TController)
| CGetController (controller_id : Z) : QueryCall TController
| CGetZones (controller : Controller) : QueryCall (TList TZone)
| CGetZone (zone_id : Z) : QueryCall TZone.

Definition call_query {t} (c : QueryCall t) : M (interp t) :=
  match c in QueryCall t return M (interp t) with
  | CGetUser => get_user
  | CGetControllers => get_controllers
  | CGetController i => get_controller i
  | CGetZones c => get_zones c
  | CGetZone i => get_zone i
  end.

Definition query_selector {t} (c : QueryCall t) : DSLField :=
  match c with
  | CGetUser => get_user_selector
  | CGetControllers => get_controllers_selector
  | CGetController i => get_controller_selector i
  | CGetZones c => get_zones_selector c
  | CGetZone i => get_zone_selector i
  end.

Inductive Call : Type :=
| Query {t} (c : QueryCall t)
| Mutation (c : MutationCall).

Definition call_document (c : Call) : Document :=
  match c with
  | Query q => dsl_gql DSLQuery (query_selector q)
  | Mutation m => dsl_gql DSLMutation (mutation_selector m)
  end.

(** The state a call leaves behind, whatever it returned or raised. *)
Definition after (c : Call) (env : Env) (st : State) : State :=
  match c with
  | Query q => snd (call_query q env st)
  | Mutation m => snd (call_mutation m env st)
  end.

Fixpoint after_all (cs : list Call) (env : Env) (st : State) : State :=
  match cs with
  | [] => st
  | c :: cs' => after_all cs' env (after c env st)
  end.

(** What a call added to the trace, and the requests among that. *)
Definition events_of (c : Call) (env : Env) (st : State) : list Event :=
added st (after c env st).

Definition outgoing (c : Call) (env : Env) (st : State) : list Request :=
sent (events_of c env st).

(** [v[k1][k2]...] *)
Fixpoint at_path (v : jval) (path : list string) : res jval :=
match path with
| [] => Ok v
| k :: path' =>
    match getitem v k with
    | Ok x => at_path x path'
    | Raise e => Raise e
    end
end.

(** The key path each query method is expected to read its payload
    from, as the method list of the specification gives it. *)
Definition expected_path {t} (c : QueryCall t) : list string :=
match c with
| CGetUser => ["me"]
| CGetControllers => ["me"; "controllers"]
| CGetController _ => ["controller"]
| CGetZones _ => ["controller"; "zones"]
| CGetZone _ => ["zone"]
end.

End Client.

(** The keyword arguments of a request's root field. *)
Definition arguments (q : Request) : gmap string jval := args (root (req_doc q)).

(** ** Outcomes and the shape of a trace *)

(** The exception a result carries, if any. *)
Definition raised {A} (r : res A) : option exn :=
  match r with Ok _ => None | Raise e => Some e end.

(** The exception a call ends with, whatever its return type. *)
Definition error_of `{Sch : Schema} (c : Call) (env : Env) (st : State)
    : option exn :=
  match c with
  | Query q => raised (fst (call_query q env st))
  | Mutation m => raised (fst (call_mutation m env st))
  end.

(** What [_mutation] makes of the envelope [resp] once it has it: the
    body of the method from the [isinstance] test on. *)
Definition check_envelope (resp : jval) : res unit :=
  if isinstance_dict resp then
    match getitem resp "status" with
    | Ok status =>
        if negb (in_ok_warning status) then
          match getitem resp "summary" with
          | Ok summary => Raise (MutationError [summary])
          | Raise e => Raise e
          end
        else Ok tt
    | Raise e => Raise e
    end
  else if negb (truthy resp) then Raise (MutationError []) else Ok tt.

(** A checker for the discipline of sessions along a trace: no session
    is open ([Idle]) or one is, and has carried a request or not. *)
Inductive Scope : Type :=
| Idle
| Within (s : nat) (used : bool)
| Broken.

Definition scope_step (sc : Scope) (e : Event) : Scope :=
  match sc, e with
  | Idle, ETokenCall _ _ => Idle
  | Idle, EOpen s => Within (sid s) false
  | Within m false, ESend n _ _ => if Nat.eqb n m then Within m true else Broken
  | Within m _, EClose n => if Nat.eqb n m then Idle else Broken
  | _, _ => Broken
  end.

Definition scope_after (tr : list Event) : Scope :=
  fold_left scope_step tr Idle.

(** Every session is opened while none is open, carries at most one
    request, and is closed; tokens are asked for between sessions. *)
Definition scoped (tr : list Event) : bool :=
  match scope_after tr with Idle => true | _ => false end.

(** The session each request went through. *)
Definition carriers (tr : list Event) : list nat :=
  omap (fun e => match e with ESend n _ _ => Some n | _ => None end) tr.

(** ** Building a request: GraphQL [Int] arguments

    A method builds its selector before it does anything else, and
    giving a field its arguments serializes each one to its GraphQL
    type: an integer outside 32 signed bits makes that step raise
    [GraphQLError].  [with_args] and the selectors above are what is
    built when the step succeeds; [serializable] tells whether it does,
    and [invoke_query] / [invoke_mutation] are the methods as called from
    outside, selector first and body after. *)

Definition MIN_INT : Z := -2147483648.
Definition MAX_INT : Z := 2147483647.

Definition fits_int (n : Z) : bool := (MIN_INT <=? n)%Z && (n <=? MAX_INT)%Z.

Definition serializes (v : jval) : bool :=
  match v with JInt n => fits_int n | _ => true end.

Definition serializable (f : DSLField) : bool :=
  bool_decide (map_Forall (fun _ v => serializes v = true) (args f)).

Definition GraphQLError : exn := Foreign "GraphQLError".

Definition building {A} (f : DSLField) (body : M A) : M A :=
  if serializable f then body else raise GraphQLError.

Definition invoke_query `{Sch : Schema} {t} (c : QueryCall t) : M (interp t) :=
  building (query_selector c) (call_query c).

Definition invoke_mutation `{Sch : Schema} (c : MutationCall) : M unit :=
  building (mutation_selector c) (call_mutation c).

Definition buildable `{Sch : Schema} (c : Call) : bool :=
  serializable (root (call_document c)).

(** The state an invocation leaves behind, what it added to the trace,
    the requests among that, and the exception it ended with. *)
Definition landed `{Sch : Schema} (c : Call) (env : Env) (st : State) : State :=
  match c with
  | Query q => snd (invoke_query q env st)
  | Mutation m => snd (invoke_mutation m env st)
  end.

Definition happened `{Sch : Schema} (c : Call) (env : Env) (st : State)
    : list Event :=
  added st (landed c env st).

Definition transmitted `{Sch : Schema} (c : Call) (env : Env) (st : State)
    : list Request :=
  sent (happened c env st).

Definition failure `{Sch : Schema} (c : Call) (env : Env) (st : State)
    : option exn :=
  match c with
  | Query q => raised (fst (invoke_query q env st))
  | Mutation m => raised (fst (invoke_mutation m env st))
  end.

Fixpoint landed_all `{Sch : Schema} (cs : list Call) (env : Env) (st : State)
    : State :=
  match cs with
  | [] => st
  | c :: cs' => landed_all cs' env (landed c env st)
  end.

(** ** A sample schema and environment

    Small stand-ins for the collaborators, to run the client on concrete
    inputs: every record is an id with a name, the deserializer reads
    those two fields, and a timestamp is seconds plus a UTC offset. *)

Module Sample.

Record Named := mkNamed { nid : Z; nname : string }.

Definition parse_named (v : jval) : res Named :=
  match v with
  | JDict d =>
      match d !! "id", d !! "name" with
      | Some (JInt i), Some (JStr n) => Ok (mkNamed i n)
      | _, _ => Raise (Foreign "deserialize")
      end
  | _ => Raise (Foreign "deserialize")
  end.

Fixpoint parse_all {A} (f : jval -> res A) (l : list jval) : res (list A) :=
  match l with
  | [] => Ok []
  | v :: l' =>
      match f v, parse_all f l' with
      | Ok a, Ok r => Ok (a :: r)
      | Raise e, _ => Raise e
      | _, Raise e => Raise e
      end
  end.

Record Stamp := mkStamp { seconds : Z; utc_offset : Z }.

Definition carrier : pytype -> Type :=
  fix carrier t :=
    match t with
    | TUser | TController | TZone => Named
    | TStatusCodeAndSummary => (string * string)%type
    | TList t' => list (carrier t')
    end.

Fixpoint parse (t : pytype) (v : jval) : res (carrier t) :=
  match t return res (carrier t) with
  | TUser | TController | TZone => parse_named v
  | TStatusCodeAndSummary => Raise (Foreign "deserialize")
  | TList t' =>
      match v with
      | JList l => parse_all (parse t') l
      | _ => Raise (Foreign "deserialize")
      end
  end.

Definition fields (t : pytype) : list DSLField :=
  match t with
  | TStatusCodeAndSummary => [field "status"; field "summary"]
  | TList _ => []
  | _ => [field "id"; field "name"]
  end.

Definition to_json (d : Stamp) : DateTimeJson :=
  mkDateTimeJson (pretty (seconds d) ++ " " ++ pretty (utc_offset d)).

Definition schema : Schema :=
  {| User := Named; Controller := Named; Zone := Named;
     ZoneSuspension := Named;
     StatusCodeAndSummary := (string * string)%type;
     datetime := Stamp;
     controller_id := nid; zone_id := nid; suspension_id := nid;
     get_selectors := fields;
     DateTime_to_json := to_json;
     deserialize := parse |}.

(** An auth helper that hands out [t] and a server that always
    answers [result]. *)
Definition answering (t : string) (result : res jval) : Env :=
  mkEnv (fun _ _ => Ok t) (fun _ _ => result).

Definition fresh : State := mkState (__init__ 0%nat) [] 0.

Definition lawn : Named := mkNamed 42 "lawn".
Definition shed : Named := mkNamed 7 "shed".
Definition noon : Stamp := mkStamp 1700000000 (-300).
Definition noon_utc : Stamp := mkStamp 1700000000 0.

(** [{name: {"status": status, "summary": summary}}] *)
Definition status_reply (name status summary : string) : jval :=
  JDict {[ name := JDict {[ "status" := JStr status;
                            "summary" := JStr summary ]} ]}.

(** [{name: v}] *)
Definition bare_reply (name : string) (v : jval) : jval :=
  JDict {[ name := v ]}.

End Sample.

(** * Properties *)

(** ** How a call runs *)

(** Closes a goal once every outcome of the body has been told apart:
    only the bracketing of the trace is left to settle. *)
Ltac trace_done := simpl; rewrite <- ?app_assoc; reflexivity.

Lemma in_ok_warning_spec (v : jval) :
  in_ok_warning v = true <-> v = JStr "OK" \/ v = JStr "WARNING".
Proof.
  destruct v as [| b | n | s | l | d]; simpl;
    try (split; [discriminate | intros [H | H]; discriminate H]).
  rewrite orb_true_iff, !String.eqb_eq.
  split; intros [H | H]; [left | right | left | right]; congruence.
Qed.

Lemma _client_run (env : Env) (st : State) :
  _client env st =
  let a := _auth (self st) in
  let r := token_now env st in
  let st' := mkState (self st) (trace st ++ [ETokenCall a r]) (next_session st) in
  match r with
  | Ok t => (Ok (AIOHTTPTransport API_URL {[ "Authorization" := t ]}), st')
  | Raise e => (Raise e, st')
  end.
Proof.
  unfold _client, bind, token, token_now, ret; simpl.
  destruct (auth_token env (_auth (self st)) (trace st)); reflexivity.
Qed.

Lemma _query_run (selector : DSLField) (env : Env) (st : State) :
  _query selector env st =
  (match token_now env st with
   | Ok t => answer_now env st t (dsl_gql DSLQuery selector)
   | Raise e => Raise e
   end,
   ran env st (dsl_gql DSLQuery selector)).
Proof.
  unfold _query, bind, ran. rewrite _client_run. cbv zeta.
  destruct (token_now env st) as [t | e]; [| reflexivity].
  unfold async_with, execute, answer_now, session_for, request_for; simpl.
  rewrite <- !app_assoc. reflexivity.
Qed.

Lemma _mutation_state (selector : DSLField) (env : Env) (st : State) :
  snd (_mutation selector env st) = ran env st (dsl_gql DSLMutation selector).
Proof.
  unfold _mutation, bind, ran. rewrite _client_run. cbv zeta.
  destruct (token_now env st) as [t | e]; [| reflexivity].
  unfold async_with, execute, answer_now, session_for, request_for, lift; simpl.
  rewrite <- !app_assoc; simpl.
  destruct (session_execute _ _ _) as [result | e]; [| trace_done].
  simpl. destruct (getitem result (name selector)) as [resp | e];
    [| trace_done].
  simpl. destruct (isinstance_dict resp); simpl.
  - destruct (getitem resp "status") as [status | e]; [| trace_done].
    simpl. destruct (in_ok_warning status); [trace_done |].
    simpl. destruct (getitem resp "summary"); trace_done.
  - destruct (truthy resp); trace_done.
Qed.

Lemma _mutation_result (selector : DSLField) (env : Env) (st : State)
    (t : string) (result resp : jval) :
  token_now env st = Ok t ->
  answer_now env st t (dsl_gql DSLMutation selector) = Ok result ->
  getitem result (name selector) = Ok resp ->
  fst (_mutation selector env st) =
  if isinstance_dict resp then
    match getitem resp "status" with
    | Ok status =>
        if in_ok_warning status then Ok tt
        else match getitem resp "summary" with
             | Ok summary => Raise (MutationError [summary])
             | Raise e => Raise e
             end
    | Raise e => Raise e
    end
  else if truthy resp then Ok tt else Raise (MutationError []).
Proof.
  intros Ht Ha Hr.
  unfold _mutation, bind. rewrite _client_run, Ht. cbv zeta.
  unfold answer_now, session_for, request_for in Ha.
  unfold async_with, execute, lift; simpl.
  rewrite <- !app_assoc; simpl. rewrite Ha; simpl. rewrite Hr; simpl.
  destruct (isinstance_dict resp); simpl.
  - destruct (getitem resp "status") as [status | e]; simpl; [| reflexivity].
    destruct (in_ok_warning status); simpl; [reflexivity |].
    destruct (getitem resp "summary"); reflexivity.
  - destruct (truthy resp); reflexivity.
Qed.

Lemma bind_pure_state {A B} (m : M A) (k : A -> M B) (env : Env) (st : State) :
  (forall a env' st', snd (k a env' st') = st') ->
  snd (bind m k env st) = snd (m env st).
Proof.
  intros Hk. unfold bind.
  destruct (m env st) as [[a | e] st']; simpl; [apply Hk | reflexivity].
Qed.

Lemma lift_state {A} (r : res A) (env : Env) (st : State) :
  snd (lift r env st) = st.
Proof. reflexivity. Qed.

Section ClientProperties.
Context `{Sch : Schema}.

Lemma call_mutation_eq (c : MutationCall) :
  call_mutation c = _mutation (mutation_selector c).
Proof. destruct c; reflexivity. Qed.

Lemma mutation_selector_name (c : MutationCall) :
  name (mutation_selector c) =
  match c with
  | CStartZone _ _ _ _ => "startZone"
  | CStopZone _ => "stopZone"
  | CStartAllZones _ _ _ => "startAllZones"
  | CStopAllZones _ => "stopAllZones"
  | CSuspendZone _ _ => "suspendZone"
  | CResumeZone _ => "resumeZone"
  | CSuspendAllZones _ _ => "suspendAllZones"
  | CResumeAllZones _ => "resumeAllZones"
  | CDeleteZoneSuspension _ => "deleteZoneSuspension"
  end.
Proof. destruct c; reflexivity. Qed.

Lemma call_query_state {t} (q : QueryCall t) (env : Env) (st : State) :
  snd (call_query q env st) = ran env st (dsl_gql DSLQuery (query_selector q)).
Proof.
  destruct q; simpl;
    unfold get_user, get_controllers, get_controller, get_zones, get_zone;
    (rewrite bind_pure_state;
     [rewrite _query_run; reflexivity |]);
    intros; repeat (rewrite bind_pure_state; [| intros]);
    apply lift_state.
Qed.

Lemma after_eq (c : Call) (env : Env) (st : State) :
  after c env st = ran env st (call_document c).
Proof.
  destruct c as [t q | m]; simpl.
  - apply call_query_state.
  - rewrite call_mutation_eq. apply _mutation_state.
Qed.

Lemma ran_self (env : Env) (st : State) (doc : Document) :
  self (ran env st doc) = self st.
Proof. unfold ran. destruct (token_now env st); reflexivity. Qed.

(** How a mutation ends once the envelope [resp] has been picked out of
    the server's answer. *)
Lemma call_mutation_result (c : MutationCall) (env : Env) (st : State)
    (t : string) (result resp : jval) :
  token_now env st = Ok t ->
  answer_now env st t (dsl_gql DSLMutation (mutation_selector c)) = Ok result ->
  getitem result (name (mutation_selector c)) = Ok resp ->
  fst (call_mutation c env st) =
  if isinstance_dict resp then
    match getitem resp "status" with
    | Ok status =>
        if in_ok_warning status then Ok tt
        else match getitem resp "summary" with
             | Ok summary => Raise (MutationError [summary])
             | Raise e => Raise e
             end
    | Raise e => Raise e
    end
  else if truthy resp then Ok tt else Raise (MutationError []).
Proof.
  intros Ht Ha Hr. rewrite call_mutation_eq.
  exact (_mutation_result _ env st t result resp Ht Ha Hr).
Qed.

(** ** Response envelopes *)

(** C1: for every mutation, when the envelope is a mapping, status
    "OK" or "WARNING" makes the call return [None]; any other status
    raises [MutationError] whose only argument is the mapping's summary
    field. *)
Theorem mutation_status_object (c : MutationCall) (env : Env) (st : State)
    (t : string) (result : jval) (d : gmap string jval) (status : jval) :
  token_now env st = Ok t ->
  answer_now env st t (dsl_gql DSLMutation (mutation_selector c)) = Ok result ->
  getitem result (name (mutation_selector c)) = Ok (JDict d) ->
  d !! "status" = Some status ->
  (status = JStr "OK" \/ status = JStr "WARNING" ->
   fst (call_mutation c env st) = Ok tt) /\
  (status <> JStr "OK" -> status <> JStr "WARNING" ->
   forall summary : jval, d !! "summary" = Some summary ->
   fst (call_mutation c env st) = Raise (MutationError [summary])).
Proof.
  intros Ht Ha Hr Hs.
  rewrite (call_mutation_result c env st t result (JDict d) Ht Ha Hr).
  simpl. rewrite Hs. split.
  - intros Hok. apply in_ok_warning_spec in Hok. rewrite Hok. reflexivity.
  - intros Hn1 Hn2 summary Hsum.
    destruct (in_ok_warning status) eqn:E.
    + apply in_ok_warning_spec in E. destruct E; contradiction.
    + rewrite Hsum. reflexivity.
Qed.

(** C2: for every mutation, when the envelope is not a mapping, a falsy
    value raises [MutationError] with no argument and a truthy value
    makes the call return [None]. *)
Theorem mutation_bare_value (c : MutationCall) (env : Env) (st : State)
    (t : string) (result resp : jval) :
  token_now env st = Ok t ->
  answer_now env st t (dsl_gql DSLMutation (mutation_selector c)) = Ok result ->
  getitem result (name (mutation_selector c)) = Ok resp ->
  isinstance_dict resp = false ->
  (truthy resp = false ->
   fst (call_mutation c env st) = Raise (MutationError [])) /\
  (truthy resp = true -> fst (call_mutation c env st) = Ok tt).
Proof.
  intros Ht Ha Hr Hd.
  rewrite (call_mutation_result c env st t result resp Ht Ha Hr), Hd.
  split; intros ->; reflexivity.
Qed.

(** C9: for every mutation, the fields of a mapping envelope are read
    unguarded: without "status" the call raises [KeyError "status"];
    with a status other than "OK"/"WARNING" and without "summary" it
    raises [KeyError "summary"]; and the empty mapping, falsy as it is,
    raises [KeyError "status"] and not the bare [MutationError]. *)
Theorem mutation_unguarded_fields (c : MutationCall) (env : Env) (st : State)
    (t : string) (result : jval) (d : gmap string jval) :
  token_now env st = Ok t ->
  answer_now env st t (dsl_gql DSLMutation (mutation_selector c)) = Ok result ->
  getitem result (name (mutation_selector c)) = Ok (JDict d) ->
  (d !! "status" = None ->
   fst (call_mutation c env st) = Raise (KeyError "status")) /\
  (forall status : jval,
     d !! "status" = Some status ->
     status <> JStr "OK" -> status <> JStr "WARNING" ->
     d !! "summary" = None ->
     fst (call_mutation c env st) = Raise (KeyError "summary")) /\
  (d = ∅ ->
   truthy (JDict d) = false /\
   fst (call_mutation c env st) = Raise (KeyError "status") /\
   fst (call_mutation c env st) <> Raise (MutationError [])).
Proof.
  intros Ht Ha Hr.
  rewrite (call_mutation_result c env st t result (JDict d) Ht Ha Hr).
  simpl. split; [| split].
  - intros ->. reflexivity.
  - intros status Hs Hn1 Hn2 Hsum. rewrite Hs.
    destruct (in_ok_warning status) eqn:E.
    + apply in_ok_warning_spec in E. destruct E; contradiction.
    + rewrite Hsum. reflexivity.
  - intros ->. rewrite lookup_empty. repeat split.
    discriminate.
Qed.

(** ** What goes on the wire *)

Lemma events_of_eq (c : Call) (env : Env) (st : State) :
  events_of c env st =
  match token_now env st with
  | Ok t =>
      [ETokenCall (_auth (self st)) (Ok t);
       EOpen (session_for st t);
       ESend (next_session st) (request_for t (call_document c))
         (answer_now env st t (call_document c));
       EClose (next_session st)]
  | Raise e => [ETokenCall (_auth (self st)) (Raise e)]
  end.
Proof.
  unfold events_of, added. rewrite after_eq. unfold ran.
  destruct (token_now env st); simpl; apply drop_app_length.
Qed.

Lemma outgoing_eq (c : Call) (env : Env) (st : State) :
  outgoing c env st =
  match token_now env st with
  | Ok t => [request_for t (call_document c)]
  | Raise _ => []
  end.
Proof.
  unfold outgoing. rewrite events_of_eq.
  destruct (token_now env st); reflexivity.
Qed.

Lemma outgoing_document (c : Call) (env : Env) (st : State) (q : Request) :
  q ∈ outgoing c env st -> req_doc q = call_document c.
Proof.
  rewrite outgoing_eq. destruct (token_now env st) as [t | e].
  - intros Hq. apply list_elem_of_singleton in Hq. subst q. reflexivity.
  - intros Hq. apply elem_of_nil in Hq. contradiction.
Qed.

Lemma start_zone_kwargs_duration (zone : Zone) (m : bool) (d : Z) (s : bool) :
  start_zone_kwargs zone m d s !! "customRunDuration" =
  if (d >? 0)%Z then Some (JInt d) else None.
Proof.
  unfold start_zone_kwargs. destruct (d >? 0)%Z.
  - apply lookup_insert_eq.
  - reflexivity.
Qed.

Lemma start_all_zones_kwargs_duration (controller : Controller) (m : bool)
    (d : Z) :
  start_all_zones_kwargs controller m d !! "customRunDuration" =
  if (d >? 0)%Z then Some (JInt d) else None.
Proof.
  unfold start_all_zones_kwargs. destruct (d >? 0)%Z.
  - apply lookup_insert_eq.
  - reflexivity.
Qed.

Lemma start_arguments (env : Env) (st : State) (zone : Zone)
    (controller : Controller) (m : bool) (d : Z) (s : bool) (q : Request) :
  q ∈ outgoing (Mutation (CStartZone zone m d s)) env st \/
  q ∈ outgoing (Mutation (CStartAllZones controller m d)) env st ->
  arguments q = start_zone_kwargs zone m d s \/
  arguments q = start_all_zones_kwargs controller m d.
Proof.
  unfold arguments.
  intros [Hq | Hq]; apply outgoing_document in Hq; rewrite Hq; simpl;
    [left | right]; apply (right_id_L ∅ (∪)).
Qed.

(** The body of the method, its selector taken as built: every request [start_zone] or [start_all_zones] sends carries no
    [customRunDuration] when [custom_run_duration] is 0, and carries it
    with exactly that value when it is positive; one request is sent
    whenever the auth helper yields a token. *)
Theorem start_duration_parameter (env : Env) (st : State) (zone : Zone)
    (controller : Controller) (mark_run_as_scheduled : bool)
    (custom_run_duration : Z) (stack_runs : bool) :
  let zone_call :=
    Mutation (CStartZone zone mark_run_as_scheduled custom_run_duration
                stack_runs) in
  let all_call :=
    Mutation (CStartAllZones controller mark_run_as_scheduled
                custom_run_duration) in
  (forall t : string, token_now env st = Ok t ->
     length (outgoing zone_call env st) = 1%nat /\
     length (outgoing all_call env st) = 1%nat) /\
  (forall q : Request,
     q ∈ outgoing zone_call env st \/ q ∈ outgoing all_call env st ->
     (custom_run_duration = 0 ->
      arguments q !! "customRunDuration" = None) /\
     (0 < custom_run_duration ->
      arguments q !! "customRunDuration" = Some (JInt custom_run_duration))).
Proof.
  cbv zeta. split.
  - intros t Ht. rewrite !outgoing_eq, Ht. split; reflexivity.
  - intros q Hq.
    destruct (start_arguments env st zone controller _ _ stack_runs q Hq)
      as [-> | ->];
      rewrite ?start_zone_kwargs_duration, ?start_all_zones_kwargs_duration;
      split; intros Hd.
    + subst custom_run_duration. reflexivity.
    + replace (custom_run_duration >? 0)%Z with true
        by (symmetry; apply Z.gtb_lt; exact Hd).
      reflexivity.
    + subst custom_run_duration. reflexivity.
    + replace (custom_run_duration >? 0)%Z with true
        by (symmetry; apply Z.gtb_lt; exact Hd).
      reflexivity.
Qed.

(** The body of the method, its selector taken as built: with a negative [custom_run_duration] the requests of
    [start_zone] and [start_all_zones] are those of the zero case, without
    [customRunDuration]; [markRunAsScheduled], and [stackRuns] for
    [start_zone], are in every request with the value given, [False]
    included. *)
Theorem start_negative_duration_and_flags (env : Env) (st : State)
    (zone : Zone) (controller : Controller) (mark_run_as_scheduled : bool)
    (custom_run_duration : Z) (stack_runs : bool) :
  let zone_call d :=
    Mutation (CStartZone zone mark_run_as_scheduled d stack_runs) in
  let all_call d :=
    Mutation (CStartAllZones controller mark_run_as_scheduled d) in
  (custom_run_duration < 0 ->
   outgoing (zone_call custom_run_duration) env st =
     outgoing (zone_call 0) env st /\
   outgoing (all_call custom_run_duration) env st =
     outgoing (all_call 0) env st /\
   forall q : Request,
     q ∈ outgoing (zone_call custom_run_duration) env st \/
     q ∈ outgoing (all_call custom_run_duration) env st ->
     arguments q !! "customRunDuration" = None) /\
  (forall q : Request,
     q ∈ outgoing (zone_call custom_run_duration) env st ->
     arguments q !! "markRunAsScheduled" = Some (JBool mark_run_as_scheduled) /\
     arguments q !! "stackRuns" = Some (JBool stack_runs)) /\
  (forall q : Request,
     q ∈ outgoing (all_call custom_run_duration) env st ->
     arguments q !! "markRunAsScheduled" = Some (JBool mark_run_as_scheduled)).
Proof.
  cbv zeta. split; [| split].
  - intros Hd.
    assert (Hgt : (custom_run_duration >? 0)%Z = false).
    { destruct (custom_run_duration >? 0)%Z eqn:E; [| reflexivity].
      apply Z.gtb_lt in E. lia. }
    rewrite !outgoing_eq. simpl.
    unfold start_zone_selector, start_all_zones_selector,
      start_zone_kwargs, start_all_zones_kwargs.
    rewrite Hgt. simpl. split; [reflexivity | split; [reflexivity |]].
    destruct (token_now env st) as [t | e].
    + intros q [Hq | Hq]; apply list_elem_of_singleton in Hq; subst q;
        unfold arguments; simpl; rewrite (right_id_L ∅ (∪)); reflexivity.
    + intros q [Hq | Hq]; apply elem_of_nil in Hq; contradiction.
  - intros q Hq. apply outgoing_document in Hq.
    unfold arguments. rewrite Hq. simpl. rewrite (right_id_L ∅ (∪)).
    unfold start_zone_kwargs.
    destruct (custom_run_duration >? 0)%Z; split;
      rewrite ?lookup_insert_ne by discriminate; reflexivity.
  - intros q Hq. apply outgoing_document in Hq.
    unfold arguments. rewrite Hq. simpl. rewrite (right_id_L ∅ (∪)).
    unfold start_all_zones_kwargs.
    destruct (custom_run_duration >? 0)%Z;
      rewrite ?lookup_insert_ne by discriminate; reflexivity.
Qed.

(** C4: [stop_zone] on a zone with id 42 sends a [stopZone] mutation with
    [zoneId] 42 (one request, once the auth helper has yielded a token);
    it returns [None] when the envelope has status "OK", and raises
    [MutationError] with "some summary" when the envelope is
    [{"status": "ERROR", "summary": "some summary"}]. *)
Theorem stop_zone_example (zone : Zone) (env : Env) (st : State) (t : string) :
  zone_id zone = 42 ->
  token_now env st = Ok t ->
  (exists q : Request,
     outgoing (Mutation (CStopZone zone)) env st = [q] /\
     operation (req_doc q) = DSLMutation /\
     name (root (req_doc q)) = "stopZone" /\
     arguments q !! "zoneId" = Some (JInt 42)) /\
  (forall (result : jval) (d : gmap string jval),
     answer_now env st t (dsl_gql DSLMutation (stop_zone_selector zone))
       = Ok result ->
     getitem result "stopZone" = Ok (JDict d) ->
     d !! "status" = Some (JStr "OK") ->
     fst (stop_zone zone env st) = Ok tt) /\
  (forall result : jval,
     answer_now env st t (dsl_gql DSLMutation (stop_zone_selector zone))
       = Ok result ->
     getitem result "stopZone" =
       Ok (JDict {[ "status" := JStr "ERROR";
                    "summary" := JStr "some summary" ]}) ->
     fst (stop_zone zone env st) =
       Raise (MutationError [JStr "some summary"])).
Proof.
  intros Hid Ht. split; [| split].
  - exists (request_for t (dsl_gql DSLMutation (stop_zone_selector zone))).
    rewrite outgoing_eq, Ht. unfold arguments. simpl.
    rewrite (right_id_L ∅ (∪)), Hid. repeat split.
  - intros result d Ha Hr Hs.
    change (stop_zone zone) with (call_mutation (CStopZone zone)).
    rewrite (call_mutation_result (CStopZone zone) env st t result (JDict d)
               Ht Ha Hr).
    simpl. rewrite Hs. reflexivity.
  - intros result Ha Hr.
    change (stop_zone zone) with (call_mutation (CStopZone zone)).
    rewrite (call_mutation_result (CStopZone zone) env st t result _
               Ht Ha Hr).
    reflexivity.
Qed.

(** ** Queries *)

Lemma call_query_result {t} (c : QueryCall t) (env : Env) (st : State) :
  fst (call_query c env st) =
  match token_now env st with
  | Ok tok =>
      match answer_now env st tok (dsl_gql DSLQuery (query_selector c)) with
      | Ok result =>
          match at_path result (expected_path c) with
          | Ok payload => deserialize t payload
          | Raise e => Raise e
          end
      | Raise e => Raise e
      end
  | Raise e => Raise e
  end.
Proof.
  destruct c; simpl;
    unfold get_user, get_controllers, get_controller, get_zones, get_zone,
      bind;
    rewrite _query_run;
    (destruct (token_now env st) as [tok | e]; [| reflexivity]);
    (destruct (answer_now env st tok _) as [result | e]; [| reflexivity]);
    unfold lift;
    repeat match goal with
      | |- context [getitem ?v ?k] =>
          destruct (getitem v k); [| reflexivity]
      end;
    reflexivity.
Qed.

(** C5: given a well-formed answer, each query method returns what
    [deserialize] makes, at the method's record type, of the payload found
    at the method's key path: "me" for [get_user], "me"."controllers" for
    [get_controllers], "controller" for [get_controller],
    "controller"."zones" for [get_zones], "zone" for [get_zone]. *)
Theorem query_returns_deserialized {t} (c : QueryCall t) (env : Env)
    (st : State) (tok : string) (result payload : jval) :
  token_now env st = Ok tok ->
  answer_now env st tok (dsl_gql DSLQuery (query_selector c)) = Ok result ->
  at_path result (expected_path c) = Ok payload ->
  fst (call_query c env st) = deserialize t payload.
Proof.
  intros Ht Ha Hp. rewrite call_query_result, Ht, Ha, Hp. reflexivity.
Qed.

(** ** Serialized timestamps *)

(** The body of the method, its selector taken as built: every request [suspend_zone] or [suspend_all_zones] sends carries
    as [until] the text [DateTime.to_json(until).value], whole: two
    timestamps the serializer tells apart are sent as different
    arguments.  One request is sent whenever the auth helper yields a
    token. *)
Theorem suspend_until_serialized (env : Env) (st : State) (zone : Zone)
    (controller : Controller) (until : datetime) :
  (forall t : string, token_now env st = Ok t ->
     length (outgoing (Mutation (CSuspendZone zone until)) env st) = 1%nat /\
     length (outgoing (Mutation (CSuspendAllZones controller until)) env st)
       = 1%nat) /\
  (forall q : Request,
     q ∈ outgoing (Mutation (CSuspendZone zone until)) env st \/
     q ∈ outgoing (Mutation (CSuspendAllZones controller until)) env st ->
     arguments q !! "until" = Some (JStr (value (DateTime_to_json until)))) /\
  (forall (until' : datetime) (q q' : Request),
     q ∈ outgoing (Mutation (CSuspendZone zone until)) env st \/
     q ∈ outgoing (Mutation (CSuspendAllZones controller until)) env st ->
     q' ∈ outgoing (Mutation (CSuspendZone zone until')) env st \/
     q' ∈ outgoing (Mutation (CSuspendAllZones controller until')) env st ->
     arguments q !! "until" = arguments q' !! "until" ->
     value (DateTime_to_json until) = value (DateTime_to_json until')).
Proof.
  assert (Harg : forall (u : datetime) (q : Request),
             q ∈ outgoing (Mutation (CSuspendZone zone u)) env st \/
             q ∈ outgoing (Mutation (CSuspendAllZones controller u)) env st ->
             arguments q !! "until" = Some (JStr (value (DateTime_to_json u)))).
  { intros u q [Hq | Hq]; apply outgoing_document in Hq;
      unfold arguments; rewrite Hq; simpl; rewrite (right_id_L ∅ (∪));
      reflexivity. }
  split; [| split].
  - intros t Ht. rewrite !outgoing_eq, Ht. split; reflexivity.
  - apply Harg.
  - intros until' q q' Hq Hq' Heq.
    rewrite (Harg until q Hq), (Harg until' q' Hq') in Heq.
    congruence.
Qed.

(** ** Tokens, sessions and the client object *)

Lemma opened_after (c : Call) (env : Env) (st : State) :
  opened (trace (after c env st)) =
  (opened (trace st) ++ opened (events_of c env st))%list.
Proof.
  rewrite events_of_eq, after_eq. unfold ran, opened.
  destruct (token_now env st); simpl; rewrite omap_app; reflexivity.
Qed.

Lemma opened_events_of (c : Call) (env : Env) (st : State) :
  opened (events_of c env st) =
  match token_now env st with
  | Ok _ => [next_session st]
  | Raise _ => []
  end.
Proof. rewrite events_of_eq. destruct (token_now env st); reflexivity. Qed.

Lemma next_session_after (c : Call) (env : Env) (st : State) :
  (next_session st <= next_session (after c env st))%nat.
Proof.
  rewrite after_eq. unfold ran. destruct (token_now env st); simpl; lia.
Qed.

(** The body of the method, its selector taken as built: every call, query or mutation, asks the auth helper once while it
    runs; with the token it gets it opens one session, never opened
    before, whose only request carries that token as [Authorization],
    and closes it; the next call asks again and opens another session. *)
Theorem fresh_token_and_session (c : Call) (env : Env) (st : State) :
  (forall n : nat, n ∈ opened (trace st) -> (n < next_session st)%nat) ->
  token_calls (events_of c env st) = [token_now env st] /\
  (forall t : string, token_now env st = Ok t ->
     events_of c env st =
       [ETokenCall (_auth (self st)) (Ok t);
        EOpen (session_for st t);
        ESend (sid (session_for st t)) (request_for t (call_document c))
          (answer_now env st t (call_document c));
        EClose (sid (session_for st t))] /\
     headers (transport (session_for st t)) !! "Authorization" = Some t /\
     req_headers (request_for t (call_document c)) !! "Authorization"
       = Some t /\
     sid (session_for st t) ∉ opened (trace st)) /\
  (forall e : exn, token_now env st = Raise e ->
     events_of c env st = [ETokenCall (_auth (self st)) (Raise e)]) /\
  (forall c' : Call,
     token_calls (events_of c' env (after c env st))
       = [token_now env (after c env st)] /\
     forall n : nat,
       n ∈ opened (events_of c env st) ->
       n ∉ opened (events_of c' env (after c env st))) /\
  (forall n : nat,
     n ∈ opened (trace (after c env st)) ->
     (n < next_session (after c env st))%nat).
Proof.
  intros Hwf. split; [| split; [| split; [| split]]].
  - rewrite events_of_eq. destruct (token_now env st); reflexivity.
  - intros t Ht. rewrite events_of_eq, Ht. repeat split.
    intros Hin. apply Hwf in Hin. simpl in Hin. lia.
  - intros e He. rewrite events_of_eq, He. reflexivity.
  - intros c'. split.
    + rewrite events_of_eq. destruct (token_now env (after c env st));
        reflexivity.
    + intros n Hn Hn'. rewrite opened_events_of in Hn, Hn'.
      destruct (token_now env st) as [t | e] eqn:Ht;
        [| apply elem_of_nil in Hn; contradiction].
      apply list_elem_of_singleton in Hn. subst n.
      destruct (token_now env (after c env st)) as [t' | e'];
        [| apply elem_of_nil in Hn'; contradiction].
      apply list_elem_of_singleton in Hn'.
      rewrite after_eq in Hn'. unfold ran in Hn'. rewrite Ht in Hn'.
      simpl in Hn'. lia.
  - intros n. rewrite opened_after, opened_events_of. intros Hn.
    apply elem_of_app in Hn. destruct Hn as [Hn | Hn].
    + apply Hwf in Hn. pose proof (next_session_after c env st). lia.
    + rewrite after_eq. unfold ran.
      destruct (token_now env st); simpl;
        [apply list_elem_of_singleton in Hn; lia
        | apply elem_of_nil in Hn; contradiction].
Qed.

Lemma after_self (c : Call) (env : Env) (st : State) :
  self (after c env st) = self st.
Proof. rewrite after_eq. apply ran_self. Qed.

(** C8: the client object is its auth reference and nothing else, and no
    call, nor any sequence of calls, changes it. *)
Theorem client_state_unchanged (cs : list Call) (env : Env) (st : State) :
  self (after_all cs env st) = self st /\
  (forall c : Call, self (after c env st) = self st) /\
  (forall h : Hydrawise, h = __init__ (_auth h)) /\
  (forall a : Auth, _auth (__init__ a) = a).
Proof.
  split; [| split; [| split]].
  - revert st. induction cs as [| c cs IH]; intros st; simpl.
    + reflexivity.
    + rewrite IH. apply after_self.
  - intros c. apply after_self.
  - intros [a]. reflexivity.
  - reflexivity.
Qed.

End ClientProperties.

(** ** The theorems at work on the sample schema *)

#[local] Existing Instance Sample.schema.

Lemma mutation_status_object_witness :
  fst (call_mutation (CStopZone Sample.lawn)
         (Sample.answering "tok"
            (Ok (Sample.status_reply "stopZone" "WARNING" "low flow")))
         Sample.fresh) = Ok tt /\
  fst (call_mutation (CStopZone Sample.lawn)
         (Sample.answering "tok"
            (Ok (Sample.status_reply "stopZone" "ERROR" "some summary")))
         Sample.fresh) = Raise (MutationError [JStr "some summary"]).
Proof.
  split.
  - refine (proj1 (mutation_status_object (CStopZone Sample.lawn)
              (Sample.answering "tok"
                 (Ok (Sample.status_reply "stopZone" "WARNING" "low flow")))
              Sample.fresh "tok"
              (Sample.status_reply "stopZone" "WARNING" "low flow")
              {[ "status" := JStr "WARNING"; "summary" := JStr "low flow" ]}
              (JStr "WARNING") _ _ _ _) _);
      first [reflexivity | right; reflexivity].
  - refine (proj2 (mutation_status_object (CStopZone Sample.lawn)
              (Sample.answering "tok"
                 (Ok (Sample.status_reply "stopZone" "ERROR" "some summary")))
              Sample.fresh "tok"
              (Sample.status_reply "stopZone" "ERROR" "some summary")
              {[ "status" := JStr "ERROR"; "summary" := JStr "some summary" ]}
              (JStr "ERROR") _ _ _ _) _ _ (JStr "some summary") _);
      first [reflexivity | discriminate].
Defined.




Lemma mutation_bare_value_witness :
  fst (call_mutation (CDeleteZoneSuspension Sample.shed)
         (Sample.answering "tok"
            (Ok (Sample.bare_reply "deleteZoneSuspension" (JBool false))))
         Sample.fresh) = Raise (MutationError []) /\
  fst (call_mutation (CDeleteZoneSuspension Sample.shed)
         (Sample.answering "tok"
            (Ok (Sample.bare_reply "deleteZoneSuspension" (JBool true))))
         Sample.fresh) = Ok tt.
Proof.
  split.
  - apply (mutation_bare_value
             (CDeleteZoneSuspension (Sch := Sample.schema) Sample.shed)
             (Sample.answering "tok"
                (Ok (Sample.bare_reply "deleteZoneSuspension" (JBool false))))
             Sample.fresh "tok"
             (Sample.bare_reply "deleteZoneSuspension" (JBool false))
             (JBool false)); reflexivity.
  - apply (mutation_bare_value
             (CDeleteZoneSuspension (Sch := Sample.schema) Sample.shed)
             (Sample.answering "tok"
                (Ok (Sample.bare_reply "deleteZoneSuspension" (JBool true))))
             Sample.fresh "tok"
             (Sample.bare_reply "deleteZoneSuspension" (JBool true))
             (JBool true)); reflexivity.
Defined.

Lemma mutation_unguarded_fields_witness :
  fst (call_mutation (CResumeZone Sample.lawn)
         (Sample.answering "tok"
            (Ok (Sample.bare_reply "resumeZone" (JDict ∅))))
         Sample.fresh) = Raise (KeyError "status") /\
  fst (call_mutation (CResumeZone Sample.lawn)
         (Sample.answering "tok"
            (Ok (Sample.bare_reply "resumeZone"
                   (JDict {[ "status" := JStr "ERROR" ]}))))
         Sample.fresh) = Raise (KeyError "summary").
Proof.
  split.
  - apply (mutation_unguarded_fields
             (CResumeZone (Sch := Sample.schema) Sample.lawn)
             (Sample.answering "tok"
                (Ok (Sample.bare_reply "resumeZone" (JDict ∅))))
             Sample.fresh "tok"
             (Sample.bare_reply "resumeZone" (JDict ∅)) ∅);
      reflexivity.
  - apply (mutation_unguarded_fields
             (CResumeZone (Sch := Sample.schema) Sample.lawn)
             (Sample.answering "tok"
                (Ok (Sample.bare_reply "resumeZone"
                       (JDict {[ "status" := JStr "ERROR" ]}))))
             Sample.fresh "tok"
             (Sample.bare_reply "resumeZone"
                (JDict {[ "status" := JStr "ERROR" ]}))
             {[ "status" := JStr "ERROR" ]}) with (status := JStr "ERROR");
      first [reflexivity | discriminate].
Defined.

Lemma start_duration_parameter_witness :
  arguments
    (request_for "tok"
       (call_document (Mutation (CStartZone Sample.lawn false 0 false))))
    !! "customRunDuration" = None /\
  arguments
    (request_for "tok"
       (call_document (Mutation (CStartAllZones Sample.shed true 90))))
    !! "customRunDuration" = Some (JInt 90).
Proof.
  split.
  - apply (start_duration_parameter
             (Sample.answering "tok" (Ok JNone)) Sample.fresh
             (Sample.lawn : @Zone Sample.schema) (Sample.shed : @Controller Sample.schema) false 0 false).
    + left. rewrite outgoing_eq. apply list_elem_of_here.
    + reflexivity.
  - apply (start_duration_parameter
             (Sample.answering "tok" (Ok JNone)) Sample.fresh
             (Sample.lawn : @Zone Sample.schema) (Sample.shed : @Controller Sample.schema) true 90 false).
    + right. rewrite outgoing_eq. apply list_elem_of_here.
    + reflexivity.
Defined.

Lemma start_negative_duration_and_flags_witness :
  arguments
    (request_for "tok"
       (call_document (Mutation (CStartZone Sample.lawn false (-5) false))))
    !! "customRunDuration" = None /\
  arguments
    (request_for "tok"
       (call_document (Mutation (CStartZone Sample.lawn false (-5) false))))
    !! "stackRuns" = Some (JBool false).
Proof.
  split.
  - apply (start_negative_duration_and_flags
             (Sample.answering "tok" (Ok JNone)) Sample.fresh
             (Sample.lawn : @Zone Sample.schema) (Sample.shed : @Controller Sample.schema) false (-5) false).
    + reflexivity.
    + left. rewrite outgoing_eq. apply list_elem_of_here.
  - apply (start_negative_duration_and_flags
             (Sample.answering "tok" (Ok JNone)) Sample.fresh
             (Sample.lawn : @Zone Sample.schema) (Sample.shed : @Controller Sample.schema) false (-5) false).
    rewrite outgoing_eq. apply list_elem_of_here.
Defined.

Lemma stop_zone_example_witness :
  fst (stop_zone Sample.lawn
         (Sample.answering "tok" (Ok (Sample.status_reply "stopZone" "OK" "")))
         Sample.fresh) = Ok tt /\
  fst (stop_zone Sample.lawn
         (Sample.answering "tok"
            (Ok (Sample.status_reply "stopZone" "ERROR" "some summary")))
         Sample.fresh) = Raise (MutationError [JStr "some summary"]).
Proof.
  split.
  - apply (stop_zone_example (Sample.lawn : @Zone Sample.schema)
             (Sample.answering "tok"
                (Ok (Sample.status_reply "stopZone" "OK" "")))
             Sample.fresh "tok" eq_refl eq_refl)
      with (result := Sample.status_reply "stopZone" "OK" "")
           (d := {[ "status" := JStr "OK"; "summary" := JStr "" ]});
      reflexivity.
  - apply (stop_zone_example (Sample.lawn : @Zone Sample.schema)
             (Sample.answering "tok"
                (Ok (Sample.status_reply "stopZone" "ERROR" "some summary")))
             Sample.fresh "tok" eq_refl eq_refl)
      with (result := Sample.status_reply "stopZone" "ERROR" "some summary");
      reflexivity.
Defined.

Lemma query_returns_deserialized_witness :
  fst (get_zone 42
         (Sample.answering "tok"
            (Ok (Sample.bare_reply "zone"
                   (JDict {[ "id" := JInt 42; "name" := JStr "lawn" ]}))))
         Sample.fresh) = Ok Sample.lawn.
Proof.
  exact (query_returns_deserialized (CGetZone (Sch := Sample.schema) 42)
           (Sample.answering "tok"
              (Ok (Sample.bare_reply "zone"
                     (JDict {[ "id" := JInt 42; "name" := JStr "lawn" ]}))))
           Sample.fresh "tok"
           (Sample.bare_reply "zone"
              (JDict {[ "id" := JInt 42; "name" := JStr "lawn" ]}))
           (JDict {[ "id" := JInt 42; "name" := JStr "lawn" ]})
           eq_refl eq_refl eq_refl).
Defined.

Lemma suspend_until_serialized_witness :
  arguments
    (request_for "tok"
       (call_document (Mutation (CSuspendZone Sample.lawn Sample.noon))))
    !! "until" = Some (JStr "1700000000 -300").
Proof.
  apply (suspend_until_serialized
           (Sample.answering "tok" (Ok JNone)) Sample.fresh
           (Sample.lawn : @Zone Sample.schema) (Sample.shed : @Controller Sample.schema)
           (Sample.noon : @datetime Sample.schema)).
  left. rewrite outgoing_eq. apply list_elem_of_here.
Defined.

Lemma fresh_token_and_session_witness :
  token_calls
    (events_of (Query CGetUser) (Sample.answering "tok" (Ok JNone))
       Sample.fresh) = [Ok "tok"].
Proof.
  apply (fresh_token_and_session (Query (CGetUser (Sch := Sample.schema)))
           (Sample.answering "tok" (Ok JNone)) Sample.fresh).
  intros n Hn. apply elem_of_nil in Hn. contradiction.
Defined.

(** ** Sample runs *)

(** When the auth helper raises, the error goes to the caller and no
    session is opened. *)
Example auth_failure_propagates :
  let env := mkEnv (fun _ _ => Raise (Foreign "NotAuthorizedError"))
                   (fun _ _ => Ok JNone) in
  fst (stop_zone Sample.lawn env Sample.fresh)
    = Raise (Foreign "NotAuthorizedError") /\
  events_of (Mutation (CStopZone Sample.lawn)) env Sample.fresh
    = [ETokenCall 0%nat (Raise (Foreign "NotAuthorizedError"))].
Proof. split; reflexivity. Qed.

(** When the transport raises inside the [async with] block, the session
    is closed all the same and the error goes to the caller. *)
Example transport_failure_closes_session :
  let env := Sample.answering "tok" (Raise (Foreign "TransportServerError")) in
  fst (get_user env Sample.fresh) = Raise (Foreign "TransportServerError") /\
  opened (events_of (Query CGetUser) env Sample.fresh) = [0%nat] /\
  closed (events_of (Query CGetUser) env Sample.fresh) = [0%nat].
Proof. repeat split; reflexivity. Qed.

(** A list query goes through the whole payload. *)
Example get_zones_sample :
  fst (get_zones Sample.shed
         (Sample.answering "tok"
            (Ok (Sample.bare_reply "controller"
                   (Sample.bare_reply "zones"
                      (JList [JDict {[ "id" := JInt 42; "name" := JStr "lawn" ]};
                              JDict {[ "id" := JInt 7; "name" := JStr "shed" ]}])))))
         Sample.fresh) = Ok [Sample.lawn; Sample.shed].
Proof. vm_compute. reflexivity. Qed.

(** Two calls in a row: two token requests, two sessions. *)
Example two_calls_two_sessions :
  let env := Sample.answering "tok" (Ok JNone) in
  let st := after_all [Query CGetUser; Mutation (CResumeZone Sample.lawn)]
              env Sample.fresh in
  token_calls (trace st) = [Ok "tok"; Ok "tok"] /\
  opened (trace st) = [0%nat; 1%nat] /\
  closed (trace st) = [0%nat; 1%nat] /\
  self st = self Sample.fresh.
Proof. repeat split; vm_compute; reflexivity. Qed.

(** * Further properties of the client *)

Section FailureSemantics.
Context `{Sch : Schema}.

(** How any mutation ends, in full. *)
Lemma call_mutation_outcome (c : MutationCall) (env : Env) (st : State) :
  fst (call_mutation c env st) =
  match token_now env st with
  | Ok t =>
      match answer_now env st t (dsl_gql DSLMutation (mutation_selector c)) with
      | Ok result =>
          match getitem result (name (mutation_selector c)) with
          | Ok resp => check_envelope resp
          | Raise e => Raise e
          end
      | Raise e => Raise e
      end
  | Raise e => Raise e
  end.
Proof.
  rewrite call_mutation_eq. unfold _mutation, bind.
  rewrite _client_run. cbv zeta.
  destruct (token_now env st) as [t | e]; [| reflexivity].
  unfold async_with, execute, answer_now, session_for, request_for, lift.
  simpl. rewrite <- !app_assoc. simpl.
  destruct (session_execute _ _ _) as [result | e]; [| reflexivity].
  simpl. destruct (getitem result _) as [resp | e]; [| reflexivity].
  simpl. unfold check_envelope.
  destruct (isinstance_dict resp); simpl.
  - destruct (getitem resp "status") as [status | e]; [| reflexivity].
    simpl. destruct (in_ok_warning status); [reflexivity |].
    simpl. destruct (getitem resp "summary"); reflexivity.
  - destruct (truthy resp); reflexivity.
Qed.

Lemma error_of_token_failure (c : Call) (env : Env) (st : State) (e : exn) :
  token_now env st = Raise e -> error_of c env st = Some e.
Proof.
  intros Ht. destruct c as [t q | m]; simpl.
  - rewrite call_query_result, Ht. reflexivity.
  - rewrite call_mutation_outcome, Ht. reflexivity.
Qed.

Lemma error_of_answer_failure (c : Call) (env : Env) (st : State)
    (t : string) (e : exn) :
  token_now env st = Ok t ->
  answer_now env st t (call_document c) = Raise e ->
  error_of c env st = Some e.
Proof.
  intros Ht Ha. destruct c as [ty q | m]; simpl in *.
  - rewrite call_query_result, Ht, Ha. reflexivity.
  - rewrite call_mutation_outcome, Ht, Ha. reflexivity.
Qed.

Lemma trace_after (c : Call) (env : Env) (st : State) :
  trace (after c env st) = (trace st ++ events_of c env st)%list.
Proof.
  rewrite events_of_eq, after_eq. unfold ran.
  destruct (token_now env st); reflexivity.
Qed.

(** X1: when the auth helper raises, any call, query or mutation, ends
    with that very exception; no session is opened, nothing is sent and
    the session counter stays where it was. *)
Theorem auth_error_surfaces (c : Call) (env : Env) (st : State) (e : exn) :
  token_now env st = Raise e ->
  error_of c env st = Some e /\
  opened (events_of c env st) = [] /\
  outgoing c env st = [] /\
  next_session (after c env st) = next_session st.
Proof.
  intros Ht. split; [| split; [| split]].
  - apply error_of_token_failure. exact Ht.
  - rewrite opened_events_of, Ht. reflexivity.
  - rewrite outgoing_eq, Ht. reflexivity.
  - rewrite after_eq. unfold ran. rewrite Ht. reflexivity.
Qed.

(** X2: when [session.execute] raises, any call ends with that very
    exception, after one request, and the session it opened is closed
    all the same. *)
Theorem transport_error_surfaces (c : Call) (env : Env) (st : State)
    (t : string) (e : exn) :
  token_now env st = Ok t ->
  answer_now env st t (call_document c) = Raise e ->
  error_of c env st = Some e /\
  outgoing c env st = [request_for t (call_document c)] /\
  opened (events_of c env st) = [next_session st] /\
  closed (events_of c env st) = [next_session st].
Proof.
  intros Ht Ha. split; [| split; [| split]].
  - apply (error_of_answer_failure c env st t e Ht Ha).
  - rewrite outgoing_eq, Ht. reflexivity.
  - rewrite opened_events_of, Ht. reflexivity.
  - rewrite events_of_eq, Ht. reflexivity.
Qed.

Lemma getitem_error (v : jval) (k : string) (e : exn) :
  getitem v k = Raise e -> e = TypeError \/ e = KeyError k.
Proof.
  destruct v as [| b | n | s | l | d]; simpl;
    try (intros [= <-]; left; reflexivity).
  destruct (d !! k); [discriminate |]. intros [= <-]. right. reflexivity.
Qed.

Lemma at_path_error (path : list string) (v : jval) (e : exn) :
  at_path v path = Raise e ->
  e = TypeError \/ exists k : string, k ∈ path /\ e = KeyError k.
Proof.
  revert v. induction path as [| k path IH]; intros v; simpl.
  - discriminate.
  - destruct (getitem v k) as [x | e'] eqn:Hk.
    + intros Hp. destruct (IH x Hp) as [-> | [k' [Hin ->]]].
      * left. reflexivity.
      * right. exists k'. split; [right; exact Hin | reflexivity].
    + intros [= <-]. destruct (getitem_error v k e' Hk) as [-> | ->].
      * left. reflexivity.
      * right. exists k. split; [left | reflexivity].
Qed.

Lemma check_envelope_error (resp : jval) (e : exn) :
  check_envelope resp = Raise e ->
  e = KeyError "status" \/ e = KeyError "summary" \/ e = MutationError [] \/
  exists (d : gmap string jval) (summary : jval),
    resp = JDict d /\ d !! "summary" = Some summary /\
    e = MutationError [summary].
Proof.
  unfold check_envelope. destruct (isinstance_dict resp) eqn:Hd.
  - destruct resp as [| | | | | d]; try discriminate Hd. simpl.
    destruct (d !! "status") as [status |]; simpl.
    + destruct (in_ok_warning status); simpl; [discriminate |].
      destruct (d !! "summary") as [summary |] eqn:Hs; intros [= <-].
      * right. right. right. exists d, summary. repeat split. exact Hs.
      * right. left. reflexivity.
    + intros [= <-]. left. reflexivity.
  - destruct (negb (truthy resp)); [| discriminate].
    intros [= <-]. right. right. left. reflexivity.
Qed.

(** X3: when the answer has no entry under the mutation's field name the
    call raises [KeyError] with that name, and when the answer is no
    mapping at all it raises [TypeError]; neither is turned into
    [MutationError]. *)
Theorem mutation_answer_without_field (c : MutationCall) (env : Env)
    (st : State) (t : string) (result : jval) :
  token_now env st = Ok t ->
  answer_now env st t (dsl_gql DSLMutation (mutation_selector c)) = Ok result ->
  (forall r : gmap string jval,
     result = JDict r -> r !! name (mutation_selector c) = None ->
     fst (call_mutation c env st)
       = Raise (KeyError (name (mutation_selector c)))) /\
  (isinstance_dict result = false ->
   fst (call_mutation c env st) = Raise TypeError).
Proof.
  intros Ht Ha. rewrite call_mutation_outcome, Ht, Ha. split.
  - intros r -> Hr. simpl. rewrite Hr. reflexivity.
  - destruct result; simpl; try reflexivity. discriminate.
Qed.

(** X4: a mutation returns normally exactly when the auth helper gave a
    token, the server answered, the answer has the mutation's field, and
    that envelope is a mapping with status "OK" or "WARNING" or a truthy
    value that is no mapping. *)
Theorem mutation_succeeds_iff (c : MutationCall) (env : Env) (st : State) :
  fst (call_mutation c env st) = Ok tt <->
  exists (t : string) (result resp : jval),
    token_now env st = Ok t /\
    answer_now env st t (dsl_gql DSLMutation (mutation_selector c))
      = Ok result /\
    getitem result (name (mutation_selector c)) = Ok resp /\
    ((exists (d : gmap string jval) (status : jval),
        resp = JDict d /\ d !! "status" = Some status /\
        (status = JStr "OK" \/ status = JStr "WARNING")) \/
     (isinstance_dict resp = false /\ truthy resp = true)).
Proof.
  rewrite call_mutation_outcome. split.
  - destruct (token_now env st) as [t | e] eqn:Ht; [| discriminate].
    destruct (answer_now env st t _) as [result | e] eqn:Ha; [| discriminate].
    destruct (getitem result _) as [resp | e] eqn:Hr; [| discriminate].
    intros Hv. exists t, result, resp.
    split; [reflexivity |]. split; [exact Ha |]. split; [exact Hr |].
    unfold check_envelope in Hv.
    destruct (isinstance_dict resp) eqn:Hd.
    + left. destruct resp as [| | | | | d]; try discriminate Hd.
      simpl in Hv. destruct (d !! "status") as [status |] eqn:Hs;
        [| discriminate].
      destruct (in_ok_warning status) eqn:Hok.
      * exists d, status. repeat split; [exact Hs |].
        apply in_ok_warning_spec. exact Hok.
      * simpl in Hv. destruct (d !! "summary"); discriminate.
    + right. split; [reflexivity |].
      destruct (truthy resp); [reflexivity | discriminate].
  - intros (t & result & resp & -> & -> & -> & Hresp).
    destruct Hresp as [(d & status & -> & Hs & Hok) | [Hd Htr]].
    + unfold check_envelope. simpl. rewrite Hs.
      apply in_ok_warning_spec in Hok. rewrite Hok. reflexivity.
    + unfold check_envelope. rewrite Hd, Htr. reflexivity.
Qed.

(** X5: once the collaborators have answered, the only exceptions a
    mutation can end with are [TypeError] and [KeyError] from the three
    subscripts, the bare [MutationError], and [MutationError] with the
    envelope's summary. *)
Theorem mutation_error_taxonomy (c : MutationCall) (env : Env) (st : State)
    (t : string) (result : jval) (e : exn) :
  token_now env st = Ok t ->
  answer_now env st t (dsl_gql DSLMutation (mutation_selector c)) = Ok result ->
  fst (call_mutation c env st) = Raise e ->
  e = TypeError \/
  e = KeyError (name (mutation_selector c)) \/
  e = KeyError "status" \/
  e = KeyError "summary" \/
  e = MutationError [] \/
  exists (d : gmap string jval) (summary : jval),
    getitem result (name (mutation_selector c)) = Ok (JDict d) /\
    d !! "summary" = Some summary /\
    e = MutationError [summary].
Proof.
  intros Ht Ha. rewrite call_mutation_outcome, Ht, Ha.
  destruct (getitem result _) as [resp | e'] eqn:Hr.
  - intros Hv. apply check_envelope_error in Hv.
    destruct Hv as [-> | [-> | [-> | (d & summary & -> & Hs & ->)]]];
      [tauto | tauto | tauto |].
    do 5 right. exists d, summary. repeat split. exact Hs.
  - intros [= <-]. destruct (getitem_error _ _ _ Hr) as [-> | ->]; tauto.
Qed.

(** X6: once the collaborators have answered, a lookup that fails on the
    way to the payload ends the query with its own exception, and the
    only exceptions a query can end with are [TypeError], [KeyError] for a
    key of its path, and whatever [deserialize] raises on the payload. *)
Theorem query_error_taxonomy {ty} (c : QueryCall ty) (env : Env) (st : State)
    (t : string) (result : jval) :
  token_now env st = Ok t ->
  answer_now env st t (dsl_gql DSLQuery (query_selector c)) = Ok result ->
  (forall e : exn,
     at_path result (expected_path c) = Raise e ->
     fst (call_query c env st) = Raise e) /\
  (forall e : exn,
     fst (call_query c env st) = Raise e ->
     e = TypeError \/
     (exists k : string, k ∈ expected_path c /\ e = KeyError k) \/
     (exists payload : jval,
        at_path result (expected_path c) = Ok payload /\
        deserialize ty payload = Raise e)).
Proof.
  intros Ht Ha. rewrite call_query_result, Ht, Ha. split.
  - intros e ->. reflexivity.
  - intros e. destruct (at_path result (expected_path c)) as [payload | e']
      eqn:Hp.
    + intros Hd. right. right. exists payload. split; [reflexivity | exact Hd].
    + intros [= <-]. destruct (at_path_error _ _ _ Hp) as [-> | Hk]; tauto.
Qed.

End FailureSemantics.

Section Requests.
Context `{Sch : Schema}.

(** X7: a call sends at most one request, failure or not; what it sends
    goes to [API_URL] with the token as its only header, as a query
    operation for a query method and a mutation operation for a mutation
    method, through the session the call opened. *)
Theorem request_envelope (c : Call) (env : Env) (st : State) :
  (length (outgoing c env st) <= 1)%nat /\
  carriers (events_of c env st) = opened (events_of c env st) /\
  forall q : Request,
    q ∈ outgoing c env st ->
    req_url q = API_URL /\
    (exists t : string,
       token_now env st = Ok t /\
       req_headers q = {[ "Authorization" := t ]}) /\
    req_doc q =
      match c with
      | Query x => dsl_gql DSLQuery (query_selector x)
      | Mutation m => dsl_gql DSLMutation (mutation_selector m)
      end.
Proof.
  rewrite outgoing_eq, events_of_eq.
  destruct (token_now env st) as [t | e]; simpl.
  - split; [lia |]. split; [reflexivity |].
    intros q Hq. apply list_elem_of_singleton in Hq. subst q.
    split; [reflexivity |]. split; [exists t; split; reflexivity |].
    destruct c; reflexivity.
  - split; [lia |]. split; [reflexivity |].
    intros q Hq. apply elem_of_nil in Hq. contradiction.
Qed.

Lemma mutation_arguments_eq (c : MutationCall) (env : Env) (st : State)
    (q : Request) :
  q ∈ outgoing (Mutation c) env st ->
  arguments q = args (mutation_selector c).
Proof.
  intros Hq. apply outgoing_document in Hq. unfold arguments.
  rewrite Hq. reflexivity.
Qed.

(** X8: the keys a mutation request carries are exactly those of its
    method: the target's id key, [until] for the suspensions, the two
    flags (one for [start_all_zones]) for the starts, and
    [customRunDuration] only with a positive duration; and the id sent is
    the id of the object passed in. *)
Theorem mutation_argument_keys (c : MutationCall) (env : Env) (st : State)
    (q : Request) :
  q ∈ outgoing (Mutation c) env st ->
  dom (arguments q) =
    match c with
    | CStartZone _ _ d _ =>
        if (d >? 0)%Z
        then {[ "zoneId"; "markRunAsScheduled"; "stackRuns";
                "customRunDuration" ]}
        else {[ "zoneId"; "markRunAsScheduled"; "stackRuns" ]}
    | CStartAllZones _ _ d =>
        if (d >? 0)%Z
        then {[ "controllerId"; "markRunAsScheduled"; "customRunDuration" ]}
        else {[ "controllerId"; "markRunAsScheduled" ]}
    | CStopZone _ | CResumeZone _ => {[ "zoneId" ]}
    | CStopAllZones _ | CResumeAllZones _ => {[ "controllerId" ]}
    | CSuspendZone _ _ => {[ "zoneId"; "until" ]}
    | CSuspendAllZones _ _ => {[ "controllerId"; "until" ]}
    | CDeleteZoneSuspension _ => {[ "id" ]}
    end /\
  match c with
  | CStartZone z _ _ _ | CStopZone z | CSuspendZone z _ | CResumeZone z =>
      arguments q !! "zoneId" = Some (JInt (zone_id z))
  | CStartAllZones k _ _ | CStopAllZones k | CSuspendAllZones k _
  | CResumeAllZones k =>
      arguments q !! "controllerId" = Some (JInt (controller_id k))
  | CDeleteZoneSuspension s =>
      arguments q !! "id" = Some (JInt (suspension_id s))
  end.
Proof.
  intros Hq. rewrite (mutation_arguments_eq c env st q Hq).
  destruct c as [z m d s | z | k m d | k | z u | z | k u | k | s]; simpl;
    rewrite (right_id_L ∅ (∪));
    unfold start_zone_kwargs, start_all_zones_kwargs;
    try destruct (d >? 0)%Z;
    (split;
     [rewrite ?dom_insert_L, ?dom_singleton_L, ?dom_empty_L; set_solver
     | rewrite ?lookup_insert_ne by discriminate; reflexivity]).
Qed.

(** X9: a query asks for what it goes on to read: the root field of its
    request is the first key of the path it follows in the answer, a
    second key is the one sub-field selected, the innermost selection is
    that of the record type the payload is deserialized into, and the
    only argument is the id given, if any. *)
Theorem query_request_matches_path {ty} (c : QueryCall ty) (env : Env)
    (st : State) (q : Request) :
  q ∈ outgoing (Query c) env st ->
  match expected_path c with
  | [k] =>
      name (root (req_doc q)) = k /\
      selection (root (req_doc q)) = get_selectors ty
  | [k; k'] =>
      name (root (req_doc q)) = k /\
      exists ety : pytype,
        ty = TList ety /\
        selection (root (req_doc q)) = [mkField k' ∅ (get_selectors ety)]
  | _ => False
  end /\
  arguments q =
    match c with
    | CGetUser | CGetControllers => ∅
    | CGetController i => {[ "controllerId" := JInt i ]}
    | CGetZones k => {[ "controllerId" := JInt (controller_id k) ]}
    | CGetZone i => {[ "zoneId" := JInt i ]}
    end.
Proof.
  intros Hq. apply outgoing_document in Hq. unfold arguments. rewrite Hq.
  destruct c; simpl; rewrite ?(right_id_L ∅ (∪));
    (split; [| reflexivity]); (split; [reflexivity |]);
    try reflexivity; eexists; split; reflexivity.
Qed.

(** X14: a mutation reads its envelope under the very field it asked
    for, the server's name of the operation; it asks for the fields of
    [StatusCodeAndSummary] below it, except [delete_zone_suspension],
    which asks for none. *)
Theorem mutation_request_field (c : MutationCall) (env : Env) (st : State)
    (t : string) (result : jval) (q : Request) :
  token_now env st = Ok t ->
  answer_now env st t (dsl_gql DSLMutation (mutation_selector c)) = Ok result ->
  q ∈ outgoing (Mutation c) env st ->
  name (root (req_doc q)) =
    match c with
    | CStartZone _ _ _ _ => "startZone"
    | CStopZone _ => "stopZone"
    | CStartAllZones _ _ _ => "startAllZones"
    | CStopAllZones _ => "stopAllZones"
    | CSuspendZone _ _ => "suspendZone"
    | CResumeZone _ => "resumeZone"
    | CSuspendAllZones _ _ => "suspendAllZones"
    | CResumeAllZones _ => "resumeAllZones"
    | CDeleteZoneSuspension _ => "deleteZoneSuspension"
    end /\
  selection (root (req_doc q)) =
    match c with
    | CDeleteZoneSuspension _ => []
    | _ => get_selectors TStatusCodeAndSummary
    end /\
  fst (call_mutation c env st) =
    match getitem result (name (root (req_doc q))) with
    | Ok resp => check_envelope resp
    | Raise e => Raise e
    end.
Proof.
  intros Ht Ha Hq. apply outgoing_document in Hq. rewrite Hq.
  change (root (call_document (Mutation c))) with (mutation_selector c).
  rewrite call_mutation_outcome, Ht, Ha.
  split; [apply mutation_selector_name |].
  split; [destruct c; reflexivity | reflexivity].
Qed.

End Requests.

Section Sequences.
Context `{Sch : Schema}.

Lemma trace_after_all (cs : list Call) (env : Env) (st : State) :
  trace st `prefix_of` trace (after_all cs env st).
Proof.
  revert st. induction cs as [| c cs IH]; intros st; simpl.
  - reflexivity.
  - etransitivity; [| apply IH]. rewrite trace_after. apply prefix_app_r.
    reflexivity.
Qed.

Lemma scope_after_call (c : Call) (env : Env) (st : State) :
  scope_after (trace st) = Idle ->
  scope_after (trace (after c env st)) = Idle.
Proof.
  intros Hs. rewrite trace_after. unfold scope_after.
  rewrite fold_left_app. fold (scope_after (trace st)). rewrite Hs.
  rewrite events_of_eq. destruct (token_now env st) as [t | e].
  - cbn. rewrite Nat.eqb_refl. cbn. rewrite Nat.eqb_refl. reflexivity.
  - reflexivity.
Qed.

(** X10: along any sequence of calls the sessions stay one-shot and
    properly nested: a session is opened only while none is open, carries
    at most one request, which goes through it and no other, is closed
    before the next token is asked for, and none is left open. *)
Theorem session_discipline (cs : list Call) (env : Env) (st : State) :
  scoped (trace st) = true ->
  scoped (trace (after_all cs env st)) = true.
Proof.
  unfold scoped. revert st. induction cs as [| c cs IH]; intros st Hs; simpl.
  - exact Hs.
  - apply IH. destruct (scope_after (trace st)) eqn:E; try discriminate Hs.
    rewrite (scope_after_call c env st E). reflexivity.
Qed.

Lemma omap_length_after {B} (f : Event -> option B) (c : Call) (env : Env)
    (st : State) :
  length (omap f (trace (after c env st))) =
  (length (omap f (trace st)) + length (omap f (events_of c env st)))%nat.
Proof. rewrite trace_after, omap_app, length_app. reflexivity. Qed.

(** The body of the method, its selector taken as built: a sequence of calls only ever appends to the history; it asks
    the auth helper exactly once per call and sends at most one request
    per call, so nothing is retried and no token is kept for later. *)
Theorem call_sequence_accounting (cs : list Call) (env : Env) (st : State) :
  trace st `prefix_of` trace (after_all cs env st) /\
  length (token_calls (trace (after_all cs env st))) =
    (length (token_calls (trace st)) + length cs)%nat /\
  (length (sent (trace (after_all cs env st))) <=
     length (sent (trace st)) + length cs)%nat /\
  (next_session st <= next_session (after_all cs env st)
     <= next_session st + length cs)%nat.
Proof.
  split; [apply trace_after_all |].
  revert st. induction cs as [| c cs IH]; intros st; simpl.
  - repeat split; lia.
  - destruct (IH (after c env st)) as (Ht & Hs & Hn1 & Hn2).
    unfold token_calls, sent in *.
    rewrite Ht.
    rewrite !omap_length_after in *.
    assert (He : length (omap (fun e => match e with
                                        | ETokenCall _ r => Some r
                                        | _ => None
                                        end) (events_of c env st)) = 1%nat
                 /\ (length (omap (fun e => match e with
                                            | ESend _ q _ => Some q
                                            | _ => None
                                            end) (events_of c env st)) <= 1)%nat
                 /\ (next_session st <= next_session (after c env st)
                       <= next_session st + 1)%nat).
    { rewrite events_of_eq, after_eq. unfold ran.
      destruct (token_now env st); simpl; repeat split; lia. }
    destruct He as (He1 & He2 & He3 & He4).
    repeat split; lia.
Qed.

Lemma lists_after (c : Call) (env : Env) (st : State) :
  opened (trace (after c env st)) =
    (opened (trace st) ++ opened (events_of c env st))%list /\
  closed (trace (after c env st)) =
    (closed (trace st) ++ opened (events_of c env st))%list /\
  carriers (trace (after c env st)) =
    (carriers (trace st) ++ opened (events_of c env st))%list.
Proof.
  unfold opened, closed, carriers. rewrite trace_after, !omap_app.
  rewrite events_of_eq. destruct (token_now env st); repeat split.
Qed.

(** X12: from a state whose sessions are all accounted for, any sequence
    of calls leaves them so: no session id is opened twice, every session
    opened has been closed, and each has carried exactly one request, in
    the order they were opened. *)
Theorem sessions_distinct_and_closed (cs : list Call) (env : Env)
    (st : State) :
  (forall n : nat, n ∈ opened (trace st) -> (n < next_session st)%nat) ->
  NoDup (opened (trace st)) ->
  closed (trace st) = opened (trace st) ->
  carriers (trace st) = opened (trace st) ->
  let st' := after_all cs env st in
  (forall n : nat, n ∈ opened (trace st') -> (n < next_session st')%nat) /\
  NoDup (opened (trace st')) /\
  closed (trace st') = opened (trace st') /\
  carriers (trace st') = opened (trace st').
Proof.
  cbv zeta. revert st.
  induction cs as [| c cs IH]; intros st Hlt Hnd Hcl Hca; simpl.
  - repeat split; assumption.
  - destruct (lists_after c env st) as (Ho & Hc & Hk).
    apply IH.
    + intros n. rewrite Ho, opened_events_of. intros Hn.
      apply elem_of_app in Hn. rewrite after_eq. unfold ran.
      destruct (token_now env st); simpl; destruct Hn as [Hn | Hn].
      * apply Hlt in Hn. lia.
      * apply list_elem_of_singleton in Hn. lia.
      * apply Hlt in Hn. lia.
      * apply elem_of_nil in Hn. contradiction.
    + rewrite Ho, opened_events_of.
      destruct (token_now env st).
      * apply NoDup_app. split; [exact Hnd |]. split.
        -- intros n Hn Hn'. apply list_elem_of_singleton in Hn'. subst n.
           apply Hlt in Hn. lia.
        -- apply NoDup_singleton.
      * rewrite app_nil_r. exact Hnd.
    + rewrite Hc, Ho, Hcl. reflexivity.
    + rewrite Hk, Ho, Hca. reflexivity.
Qed.

(** X13: what a call returns or raises is settled by what the
    collaborators answer to that call alone: the history, the session
    counter and the client object matter only through those answers. *)
Theorem outcome_depends_on_answers_only (env1 env2 : Env) (st1 st2 : State) :
  token_now env1 st1 = token_now env2 st2 ->
  (forall {ty} (c : QueryCall ty),
     (forall t : string,
        answer_now env1 st1 t (call_document (Query c)) =
        answer_now env2 st2 t (call_document (Query c))) ->
     fst (call_query c env1 st1) = fst (call_query c env2 st2)) /\
  (forall c : MutationCall,
     (forall t : string,
        answer_now env1 st1 t (call_document (Mutation c)) =
        answer_now env2 st2 t (call_document (Mutation c))) ->
     fst (call_mutation c env1 st1) = fst (call_mutation c env2 st2)).
Proof.
  intros Ht. split.
  - intros ty c Ha. rewrite !call_query_result, Ht.
    destruct (token_now env2 st2) as [t | e]; [| reflexivity].
    simpl in Ha. rewrite Ha. reflexivity.
  - intros c Ha. rewrite !call_mutation_outcome, Ht.
    destruct (token_now env2 st2) as [t | e]; [| reflexivity].
    simpl in Ha. rewrite Ha. reflexivity.
Qed.

End Sequences.

(** ** The further properties at work on the sample schema *)

Lemma auth_error_surfaces_witness :
  error_of (Mutation (CStopZone Sample.lawn))
    (mkEnv (fun _ _ => Raise (Foreign "NotAuthorizedError"))
           (fun _ _ => Ok JNone))
    Sample.fresh = Some (Foreign "NotAuthorizedError").
Proof.
  apply (auth_error_surfaces
           (Mutation (CStopZone (Sch := Sample.schema) Sample.lawn))
           (mkEnv (fun _ _ => Raise (Foreign "NotAuthorizedError"))
                  (fun _ _ => Ok JNone))
           Sample.fresh (Foreign "NotAuthorizedError")).
  reflexivity.
Defined.

Lemma transport_error_surfaces_witness :
  error_of (Query CGetControllers)
    (Sample.answering "tok" (Raise (Foreign "TransportServerError")))
    Sample.fresh = Some (Foreign "TransportServerError").
Proof.
  apply (transport_error_surfaces
           (Query (CGetControllers (Sch := Sample.schema)))
           (Sample.answering "tok" (Raise (Foreign "TransportServerError")))
           Sample.fresh "tok" (Foreign "TransportServerError"));
    reflexivity.
Defined.

Lemma mutation_answer_without_field_witness :
  fst (call_mutation (CStopZone Sample.lawn)
         (Sample.answering "tok" (Ok (Sample.bare_reply "startZone" JNone)))
         Sample.fresh) = Raise (KeyError "stopZone") /\
  fst (call_mutation (CStopZone Sample.lawn)
         (Sample.answering "tok" (Ok JNone))
         Sample.fresh) = Raise TypeError.
Proof.
  split.
  - apply (mutation_answer_without_field
             (CStopZone (Sch := Sample.schema) Sample.lawn)
             (Sample.answering "tok"
                (Ok (Sample.bare_reply "startZone" JNone)))
             Sample.fresh "tok" (Sample.bare_reply "startZone" JNone)
             eq_refl eq_refl)
      with (r := {[ "startZone" := JNone ]}); reflexivity.
  - apply (mutation_answer_without_field
             (CStopZone (Sch := Sample.schema) Sample.lawn)
             (Sample.answering "tok" (Ok JNone))
             Sample.fresh "tok" JNone eq_refl eq_refl).
    reflexivity.
Defined.

Lemma mutation_error_taxonomy_witness :
  let e := MutationError [JStr "offline"] in
  e = TypeError \/
  e = KeyError "stopZone" \/
  e = KeyError "status" \/
  e = KeyError "summary" \/
  e = MutationError [] \/
  exists (d : gmap string jval) (summary : jval),
    getitem (Sample.status_reply "stopZone" "ERROR" "offline") "stopZone"
      = Ok (JDict d) /\
    d !! "summary" = Some summary /\
    e = MutationError [summary].
Proof.
  exact (mutation_error_taxonomy
           (CStopZone (Sch := Sample.schema) Sample.lawn)
           (Sample.answering "tok"
              (Ok (Sample.status_reply "stopZone" "ERROR" "offline")))
           Sample.fresh "tok"
           (Sample.status_reply "stopZone" "ERROR" "offline")
           (MutationError [JStr "offline"])
           eq_refl eq_refl eq_refl).
Defined.

Lemma query_error_taxonomy_witness :
  fst (get_controllers
         (Sample.answering "tok" (Ok (Sample.bare_reply "me" (JDict ∅))))
         Sample.fresh) = Raise (KeyError "controllers").
Proof.
  apply (query_error_taxonomy (CGetControllers (Sch := Sample.schema))
           (Sample.answering "tok" (Ok (Sample.bare_reply "me" (JDict ∅))))
           Sample.fresh "tok" (Sample.bare_reply "me" (JDict ∅))
           eq_refl eq_refl).
  reflexivity.
Defined.

Lemma request_envelope_witness :
  req_url
    (request_for "tok" (call_document (Mutation (CResumeZone Sample.lawn))))
    = API_URL.
Proof.
  apply (request_envelope
           (Mutation (CResumeZone (Sch := Sample.schema) Sample.lawn))
           (Sample.answering "tok" (Ok JNone)) Sample.fresh).
  rewrite outgoing_eq. apply list_elem_of_here.
Defined.

Lemma mutation_argument_keys_witness :
  dom (arguments
         (request_for "tok"
            (call_document
               (Mutation (CStartAllZones Sample.shed false 600)))))
    = {[ "controllerId"; "markRunAsScheduled"; "customRunDuration" ]}.
Proof.
  apply (mutation_argument_keys
           (CStartAllZones (Sch := Sample.schema) Sample.shed false 600)
           (Sample.answering "tok" (Ok JNone)) Sample.fresh).
  rewrite outgoing_eq. apply list_elem_of_here.
Defined.

Lemma query_request_matches_path_witness :
  arguments (request_for "tok" (call_document (Query (CGetZones Sample.shed))))
    = {[ "controllerId" := JInt 7 ]}.
Proof.
  apply (query_request_matches_path
           (CGetZones (Sch := Sample.schema) Sample.shed)
           (Sample.answering "tok" (Ok JNone)) Sample.fresh).
  rewrite outgoing_eq. apply list_elem_of_here.
Defined.

Lemma session_discipline_witness :
  scoped
    (trace
       (after_all [Query CGetUser; Mutation (CStopZone Sample.lawn)]
          (Sample.answering "tok" (Ok JNone)) Sample.fresh)) = true.
Proof.
  apply (session_discipline
           [Query (CGetUser (Sch := Sample.schema));
            Mutation (CStopZone (Sch := Sample.schema) Sample.lawn)]
           (Sample.answering "tok" (Ok JNone)) Sample.fresh).
  reflexivity.
Defined.

Lemma sessions_distinct_and_closed_witness :
  NoDup
    (opened
       (trace
          (after_all [Query CGetUser; Mutation (CStopZone Sample.lawn)]
             (Sample.answering "tok" (Ok JNone)) Sample.fresh))).
Proof.
  apply (sessions_distinct_and_closed
           [Query (CGetUser (Sch := Sample.schema));
            Mutation (CStopZone (Sch := Sample.schema) Sample.lawn)]
           (Sample.answering "tok" (Ok JNone)) Sample.fresh).
  - intros n Hn. apply elem_of_nil in Hn. contradiction.
  - apply NoDup_nil_2.
  - reflexivity.
  - reflexivity.
Defined.

Lemma outcome_depends_on_answers_only_witness :
  fst (call_mutation (CStopZone Sample.lawn)
         (Sample.answering "tok" (Ok (Sample.status_reply "stopZone" "OK" "")))
         Sample.fresh) =
  fst (call_mutation (CStopZone Sample.lawn)
         (Sample.answering "tok" (Ok (Sample.status_reply "stopZone" "OK" "")))
         (after (Query CGetUser) (Sample.answering "tok" (Ok JNone))
            Sample.fresh)).
Proof.
  apply (outcome_depends_on_answers_only (Sch := Sample.schema)
           (Sample.answering "tok"
              (Ok (Sample.status_reply "stopZone" "OK" "")))
           (Sample.answering "tok"
              (Ok (Sample.status_reply "stopZone" "OK" "")))
           Sample.fresh
           (after (Query CGetUser) (Sample.answering "tok" (Ok JNone))
              Sample.fresh)).
  - reflexivity.
  - intros t. reflexivity.
Defined.

Lemma mutation_request_field_witness :
  selection
    (root (req_doc
       (request_for "tok"
          (call_document (Mutation (CDeleteZoneSuspension Sample.shed))))))
    = [].
Proof.
  apply (mutation_request_field
           (CDeleteZoneSuspension (Sch := Sample.schema) Sample.shed)
           (Sample.answering "tok" (Ok JNone)) Sample.fresh "tok" JNone
           (request_for "tok"
              (call_document
                 (Mutation
                    (CDeleteZoneSuspension (Sch := Sample.schema)
                       Sample.shed))))
           eq_refl eq_refl).
  rewrite outgoing_eq. apply list_elem_of_here.
Defined.

(** * The methods as invoked: the selector is built first *)

Section Invocation.
Context `{Sch : Schema}.

Lemma landed_eq (c : Call) (env : Env) (st : State) :
  landed c env st = if buildable c then after c env st else st.
Proof.
  destruct c as [t q | m]; unfold landed, buildable, invoke_query,
    invoke_mutation, building; simpl;
    destruct (serializable _); reflexivity.
Qed.

Lemma happened_eq (c : Call) (env : Env) (st : State) :
  happened c env st = if buildable c then events_of c env st else [].
Proof.
  unfold happened. rewrite landed_eq. destruct (buildable c).
  - reflexivity.
  - unfold added. apply drop_all.
Qed.

Lemma transmitted_eq (c : Call) (env : Env) (st : State) :
  transmitted c env st = if buildable c then outgoing c env st else [].
Proof.
  unfold transmitted. rewrite happened_eq.
  destruct (buildable c); reflexivity.
Qed.

Lemma failure_eq (c : Call) (env : Env) (st : State) :
  failure c env st =
  if buildable c then error_of c env st else Some GraphQLError.
Proof.
  destruct c as [t q | m]; unfold failure, buildable, invoke_query,
    invoke_mutation, building; simpl;
    destruct (serializable _); reflexivity.
Qed.

Lemma bool_decide_bool (P : Prop) `{Decision P} (b : bool) :
  (P <-> b = true) -> bool_decide P = b.
Proof.
  intros HP. destruct b.
  - apply bool_decide_eq_true. apply HP. reflexivity.
  - apply bool_decide_eq_false. intros HPt. apply HP in HPt. discriminate.
Qed.

Lemma serializable_singleton (n k : string) (i : Z) (sel : list DSLField) :
  serializable (select (with_args (field n) {[ k := JInt i ]}) sel)
    = fits_int i.
Proof.
  unfold serializable. simpl. rewrite (right_id_L ∅ (∪)).
  apply bool_decide_bool. rewrite map_Forall_singleton. reflexivity.
Qed.

Ltac forall_literal :=
  repeat (rewrite map_Forall_insert by reflexivity);
  rewrite ?map_Forall_singleton; cbn [serializes];
  rewrite ?andb_true_iff; intuition congruence.

Lemma serializable_start_zone (z : Zone) (m : bool) (d : Z) (s : bool) :
  serializable (start_zone_selector z m d s) =
  fits_int (zone_id z) && (if (d >? 0)%Z then fits_int d else true).
Proof.
  unfold serializable, start_zone_selector. simpl.
  rewrite (right_id_L ∅ (∪)). apply bool_decide_bool.
  unfold start_zone_kwargs. destruct (d >? 0)%Z; forall_literal.
Qed.

Lemma serializable_start_all_zones (k : Controller) (m : bool) (d : Z) :
  serializable (start_all_zones_selector k m d) =
  fits_int (controller_id k) && (if (d >? 0)%Z then fits_int d else true).
Proof.
  unfold serializable, start_all_zones_selector. simpl.
  rewrite (right_id_L ∅ (∪)). apply bool_decide_bool.
  unfold start_all_zones_kwargs. destruct (d >? 0)%Z; forall_literal.
Qed.

Lemma serializable_suspend_zone (z : Zone) (u : datetime) :
  serializable (suspend_zone_selector z u) = fits_int (zone_id z).
Proof.
  unfold serializable, suspend_zone_selector. simpl.
  rewrite (right_id_L ∅ (∪)). apply bool_decide_bool. forall_literal.
Qed.

Lemma serializable_suspend_all_zones (k : Controller) (u : datetime) :
  serializable (suspend_all_zones_selector k u) = fits_int (controller_id k).
Proof.
  unfold serializable, suspend_all_zones_selector. simpl.
  rewrite (right_id_L ∅ (∪)). apply bool_decide_bool. forall_literal.
Qed.

End Invocation.

Section InvokedStarts.
Context `{Sch : Schema}.

Lemma fits_positive (d : Z) : 0 < d -> d <= MAX_INT -> fits_int d = true.
Proof.
  intros Hp Hm. unfold fits_int. apply andb_true_iff.
  split; apply Z.leb_le; [unfold MIN_INT; lia | exact Hm].
Qed.

Lemma fits_above (d : Z) : MAX_INT < d -> fits_int d = false.
Proof.
  intros Hd. unfold fits_int. apply andb_false_iff. right.
  apply Z.leb_gt. exact Hd.
Qed.

Lemma start_buildable (zone : Zone) (controller : Controller) (m : bool)
    (d : Z) (s : bool) :
  fits_int (zone_id zone) = true ->
  fits_int (controller_id controller) = true ->
  d <= MAX_INT ->
  buildable (Mutation (CStartZone zone m d s)) = true /\
  buildable (Mutation (CStartAllZones controller m d)) = true.
Proof.
  intros Hz Hk Hd. unfold buildable. simpl.
  rewrite serializable_start_zone, serializable_start_all_zones, Hz, Hk.
  destruct (d >? 0)%Z eqn:E; [| split; reflexivity].
  apply Z.gtb_lt in E. rewrite (fits_positive d E Hd). split; reflexivity.
Qed.

Lemma start_not_buildable (zone : Zone) (controller : Controller) (m : bool)
    (d : Z) (s : bool) :
  MAX_INT < d ->
  buildable (Mutation (CStartZone zone m d s)) = false /\
  buildable (Mutation (CStartAllZones controller m d)) = false.
Proof.
  intros Hd. unfold buildable. simpl.
  rewrite serializable_start_zone, serializable_start_all_zones.
  assert (E : (d >? 0)%Z = true) by (apply Z.gtb_lt; unfold MAX_INT in Hd; lia).
  rewrite E, (fits_above d Hd), !andb_false_r. split; reflexivity.
Qed.

(** C3, amended: when the auth helper yields a token and the ids and the
    duration fit a GraphQL [Int], [start_zone] and [start_all_zones] each
    send one request, without [customRunDuration] when
    [custom_run_duration] is 0 and with exactly that value when it is
    positive.  A duration above [MAX_INT] is not sent: the call raises
    [GraphQLError] while it builds its selector, before any token is asked
    for. *)
Theorem start_duration_within_int (env : Env) (st : State) (zone : Zone)
    (controller : Controller) (mark_run_as_scheduled : bool)
    (custom_run_duration : Z) (stack_runs : bool) :
  (forall t : string,
     token_now env st = Ok t ->
     fits_int (zone_id zone) = true ->
     fits_int (controller_id controller) = true ->
     custom_run_duration <= MAX_INT ->
     exists qz qa : Request,
       transmitted
         (Mutation (CStartZone zone mark_run_as_scheduled custom_run_duration
                      stack_runs)) env st = [qz] /\
       transmitted
         (Mutation (CStartAllZones controller mark_run_as_scheduled
                      custom_run_duration)) env st = [qa] /\
       (custom_run_duration = 0 ->
        arguments qz !! "customRunDuration" = None /\
        arguments qa !! "customRunDuration" = None) /\
       (0 < custom_run_duration ->
        arguments qz !! "customRunDuration"
          = Some (JInt custom_run_duration) /\
        arguments qa !! "customRunDuration"
          = Some (JInt custom_run_duration))) /\
  (MAX_INT < custom_run_duration ->
   forall c : Call,
     c = Mutation (CStartZone zone mark_run_as_scheduled custom_run_duration
                     stack_runs) \/
     c = Mutation (CStartAllZones controller mark_run_as_scheduled
                     custom_run_duration) ->
     failure c env st = Some GraphQLError /\
     happened c env st = [] /\
     transmitted c env st = []).
Proof.
  split.
  - intros t Ht Hz Hk Hd.
    destruct (start_buildable zone controller mark_run_as_scheduled
                custom_run_duration stack_runs Hz Hk Hd) as [Bz Ba].
    rewrite !transmitted_eq, Bz, Ba, !outgoing_eq, Ht.
    eexists _, _. split; [reflexivity |]. split; [reflexivity |].
    unfold arguments. simpl. rewrite !(right_id_L ∅ (∪)).
    rewrite start_zone_kwargs_duration, start_all_zones_kwargs_duration.
    split; intros Hc.
    + subst custom_run_duration. split; reflexivity.
    + replace (custom_run_duration >? 0)%Z with true
        by (symmetry; apply Z.gtb_lt; exact Hc).
      split; reflexivity.
  - intros Hd c Hc.
    destruct (start_not_buildable zone controller mark_run_as_scheduled
                custom_run_duration stack_runs Hd) as [Bz Ba].
    rewrite failure_eq, transmitted_eq, happened_eq.
    destruct Hc as [-> | ->]; rewrite ?Bz, ?Ba; repeat split.
Qed.

Lemma transmitted_built (c : Call) (env : Env) (st : State) (t : string) :
  buildable c = true ->
  token_now env st = Ok t ->
  transmitted c env st = [request_for t (call_document c)].
Proof.
  intros Hb Ht. rewrite transmitted_eq, Hb, outgoing_eq, Ht. reflexivity.
Qed.

Lemma args_built (n : string) (kw : gmap string jval) (sel : list DSLField) :
  args (select (with_args (field n) kw) sel) = kw.
Proof. simpl. apply (right_id_L ∅ (∪)). Qed.

Lemma start_kwargs_flags (zone : Zone) (controller : Controller) (m : bool)
    (d : Z) (s : bool) :
  start_zone_kwargs zone m d s !! "markRunAsScheduled" = Some (JBool m) /\
  start_zone_kwargs zone m d s !! "stackRuns" = Some (JBool s) /\
  start_all_zones_kwargs controller m d !! "markRunAsScheduled"
    = Some (JBool m).
Proof.
  unfold start_zone_kwargs, start_all_zones_kwargs.
  destruct (d >? 0)%Z; rewrite ?lookup_insert_ne by discriminate;
    repeat split.
Qed.

Lemma start_kwargs_nonpositive (zone : Zone) (controller : Controller)
    (m : bool) (d : Z) (s : bool) :
  (d >? 0)%Z = false ->
  start_zone_kwargs zone m 0 s = start_zone_kwargs zone m d s /\
  start_all_zones_kwargs controller m 0 = start_all_zones_kwargs controller m d.
Proof.
  intros E. unfold start_zone_kwargs, start_all_zones_kwargs.
  rewrite E. split; reflexivity.
Qed.

(** C10: when the auth helper yields a token and the ids (and a positive
    duration) fit a GraphQL [Int], [start_zone] and [start_all_zones] each
    send one request; it carries [markRunAsScheduled], and [stackRuns] for
    [start_zone], with the value given, [False] included; and with a
    negative [custom_run_duration] it carries no [customRunDuration] and
    is the request of the zero case. *)
Theorem start_flags_always_sent (env : Env) (st : State) (zone : Zone)
    (controller : Controller) (mark_run_as_scheduled : bool)
    (custom_run_duration : Z) (stack_runs : bool) (t : string) :
  token_now env st = Ok t ->
  fits_int (zone_id zone) = true ->
  fits_int (controller_id controller) = true ->
  custom_run_duration <= MAX_INT ->
  exists qz qa : Request,
    transmitted
      (Mutation (CStartZone zone mark_run_as_scheduled custom_run_duration
                   stack_runs)) env st = [qz] /\
    transmitted
      (Mutation (CStartAllZones controller mark_run_as_scheduled
                   custom_run_duration)) env st = [qa] /\
    arguments qz !! "markRunAsScheduled" = Some (JBool mark_run_as_scheduled) /\
    arguments qz !! "stackRuns" = Some (JBool stack_runs) /\
    arguments qa !! "markRunAsScheduled" = Some (JBool mark_run_as_scheduled) /\
    (custom_run_duration < 0 ->
     arguments qz !! "customRunDuration" = None /\
     arguments qa !! "customRunDuration" = None /\
     transmitted
       (Mutation (CStartZone zone mark_run_as_scheduled 0 stack_runs)) env st
       = [qz] /\
     transmitted
       (Mutation (CStartAllZones controller mark_run_as_scheduled 0)) env st
       = [qa]).
Proof.
  intros Ht Hz Hk Hd.
  destruct (start_buildable zone controller mark_run_as_scheduled
              custom_run_duration stack_runs Hz Hk Hd) as [Bz Ba].
  exists (request_for t
            (call_document
               (Mutation (CStartZone zone mark_run_as_scheduled
                            custom_run_duration stack_runs)))),
         (request_for t
            (call_document
               (Mutation (CStartAllZones controller mark_run_as_scheduled
                            custom_run_duration)))).
  split; [exact (transmitted_built _ env st t Bz Ht) |].
  split; [exact (transmitted_built _ env st t Ba Ht) |].
  unfold arguments, call_document, mutation_selector, req_doc, request_for,
    root, start_zone_selector, start_all_zones_selector.
  rewrite !args_built.
  destruct (start_kwargs_flags zone controller mark_run_as_scheduled
              custom_run_duration stack_runs) as (F1 & F2 & F3).
  split; [exact F1 |]. split; [exact F2 |]. split; [exact F3 |].
  intros Hn.
  assert (E : (custom_run_duration >? 0)%Z = false).
  { destruct (custom_run_duration >? 0)%Z eqn:E; [| reflexivity].
    apply Z.gtb_lt in E. lia. }
  assert (H0 : 0 <= MAX_INT) by (unfold MAX_INT; lia).
  destruct (start_buildable zone controller mark_run_as_scheduled
              0 stack_runs Hz Hk H0) as [Bz0 Ba0].
  rewrite start_zone_kwargs_duration, start_all_zones_kwargs_duration, E.
  split; [reflexivity |]. split; [reflexivity |].
  destruct (start_kwargs_nonpositive zone controller mark_run_as_scheduled
              custom_run_duration stack_runs E) as [Kz Ka].
  split.
  - rewrite (transmitted_built _ env st t Bz0 Ht). simpl.
    unfold start_zone_selector. rewrite Kz. reflexivity.
  - rewrite (transmitted_built _ env st t Ba0 Ht). simpl.
    unfold start_all_zones_selector. rewrite Ka. reflexivity.
Qed.

End InvokedStarts.

Section InvokedCalls.
Context `{Sch : Schema}.


(** X15: when the auth helper yields a token and the id fits a GraphQL
    [Int], [suspend_zone] and [suspend_all_zones] each send one request,
    and its [until] argument is the text [DateTime.to_json(until).value],
    unchanged. *)
Theorem suspend_until_forwarded (env : Env) (st : State) (zone : Zone)
    (controller : Controller) (until : datetime) (t : string) :
  token_now env st = Ok t ->
  fits_int (zone_id zone) = true ->
  fits_int (controller_id controller) = true ->
  exists qz qa : Request,
    transmitted (Mutation (CSuspendZone zone until)) env st = [qz] /\
    transmitted (Mutation (CSuspendAllZones controller until)) env st = [qa] /\
    arguments qz !! "until" = Some (JStr (value (DateTime_to_json until))) /\
    arguments qa !! "until" = Some (JStr (value (DateTime_to_json until))).
Proof.
  intros Ht Hz Hk.
  assert (Bz : buildable (Mutation (CSuspendZone zone until)) = true).
  { unfold buildable. simpl. rewrite serializable_suspend_zone. exact Hz. }
  assert (Ba : buildable (Mutation (CSuspendAllZones controller until)) = true).
  { unfold buildable. simpl. rewrite serializable_suspend_all_zones.
    exact Hk. }
  exists (request_for t
            (call_document (Mutation (CSuspendZone zone until)))),
         (request_for t
            (call_document (Mutation (CSuspendAllZones controller until)))).
  split; [exact (transmitted_built _ env st t Bz Ht) |].
  split; [exact (transmitted_built _ env st t Ba Ht) |].
  unfold arguments, call_document, mutation_selector, req_doc, request_for,
    root, suspend_zone_selector, suspend_all_zones_selector.
  rewrite !args_built. split; reflexivity.
Qed.

Lemma landed_step (c : Call) (env : Env) (st : State) :
  trace st `prefix_of` trace (landed c env st) /\
  length (token_calls (trace (landed c env st))) =
    (length (token_calls (trace st)) + (if buildable c then 1 else 0))%nat /\
  (length (sent (trace (landed c env st))) <=
     length (sent (trace st)) + (if buildable c then 1 else 0))%nat.
Proof.
  rewrite landed_eq. destruct (buildable c).
  - destruct (call_sequence_accounting [c] env st) as (Hp & Ht & Hs & _).
    simpl in *. repeat split; assumption.
  - repeat split; [reflexivity | lia | lia].
Qed.

(** X11: a sequence of invocations only ever appends to the history; it
    asks the auth helper once for each call whose selector could be built
    and never for the others, and sends at most as many requests: nothing
    is retried and no token is kept for later. *)
Theorem invocation_accounting (cs : list Call) (env : Env) (st : State) :
  trace st `prefix_of` trace (landed_all cs env st) /\
  length (token_calls (trace (landed_all cs env st))) =
    (length (token_calls (trace st)) + length (List.filter buildable cs))%nat /\
  (length (sent (trace (landed_all cs env st))) <=
     length (sent (trace st)) + length (List.filter buildable cs))%nat.
Proof.
  revert st. induction cs as [| c cs IH]; intros st; simpl.
  - repeat split; [reflexivity | lia | lia].
  - destruct (IH (landed c env st)) as (Hp & Ht & Hs).
    destruct (landed_step c env st) as (Hp1 & Ht1 & Hs1).
    split; [etransitivity; eassumption |].
    destruct (buildable c); simpl; split; lia.
Qed.

End InvokedCalls.


(** ** Invocations on the sample schema *)

(** A positive duration of 2^31 reaches no request: the claim that every
    positive duration is sent with its exact value fails there. *)
Lemma start_duration_parameter_counterexample :
  0 < 2147483648 /\
  token_now (Sample.answering "tok" (Ok JNone)) Sample.fresh = Ok "tok" /\
  failure (Mutation (CStartZone Sample.lawn false 2147483648 false))
    (Sample.answering "tok" (Ok JNone)) Sample.fresh = Some GraphQLError /\
  ~ exists q : Request,
      q ∈ transmitted
            (Mutation (CStartZone Sample.lawn false 2147483648 false))
            (Sample.answering "tok" (Ok JNone)) Sample.fresh /\
      arguments q !! "customRunDuration" = Some (JInt 2147483648).
Proof.
  split; [reflexivity |]. split; [reflexivity |]. split; [reflexivity |].
  intros (q & Hq & _).
  change (q ∈ ([] : list Request)) in Hq.
  apply elem_of_nil in Hq. exact Hq.
Qed.


Lemma start_duration_within_int_witness :
  exists qz qa : Request,
    transmitted (Mutation (CStartZone Sample.lawn false 90 true))
      (Sample.answering "tok" (Ok JNone)) Sample.fresh = [qz] /\
    transmitted (Mutation (CStartAllZones Sample.shed false 90))
      (Sample.answering "tok" (Ok JNone)) Sample.fresh = [qa] /\
    (90 = 0 ->
     arguments qz !! "customRunDuration" = None /\
     arguments qa !! "customRunDuration" = None) /\
    (0 < 90 ->
     arguments qz !! "customRunDuration" = Some (JInt 90) /\
     arguments qa !! "customRunDuration" = Some (JInt 90)).
Proof.
  apply (proj1 (start_duration_within_int
                  (Sample.answering "tok" (Ok JNone)) Sample.fresh
                  (Sample.lawn : @Zone Sample.schema)
                  (Sample.shed : @Controller Sample.schema) false 90 true)
           "tok"); [reflexivity | reflexivity | reflexivity |].
  unfold MAX_INT. lia.
Defined.

Lemma start_flags_always_sent_witness :
  exists qz qa : Request,
    transmitted (Mutation (CStartZone Sample.lawn false (-5) false))
      (Sample.answering "tok" (Ok JNone)) Sample.fresh = [qz] /\
    transmitted (Mutation (CStartAllZones Sample.shed false (-5)))
      (Sample.answering "tok" (Ok JNone)) Sample.fresh = [qa] /\
    arguments qz !! "markRunAsScheduled" = Some (JBool false) /\
    arguments qz !! "stackRuns" = Some (JBool false) /\
    arguments qa !! "markRunAsScheduled" = Some (JBool false) /\
    (-5 < 0 ->
     arguments qz !! "customRunDuration" = None /\
     arguments qa !! "customRunDuration" = None /\
     transmitted (Mutation (CStartZone Sample.lawn false 0 false))
       (Sample.answering "tok" (Ok JNone)) Sample.fresh = [qz] /\
     transmitted (Mutation (CStartAllZones Sample.shed false 0))
       (Sample.answering "tok" (Ok JNone)) Sample.fresh = [qa]).
Proof.
  apply (start_flags_always_sent
           (Sample.answering "tok" (Ok JNone)) Sample.fresh
           (Sample.lawn : @Zone Sample.schema)
           (Sample.shed : @Controller Sample.schema) false (-5) false
           "tok"); [reflexivity | reflexivity | reflexivity |].
  unfold MAX_INT. lia.
Defined.


Lemma suspend_until_forwarded_witness :
  exists qz qa : Request,
    transmitted (Mutation (CSuspendZone Sample.lawn Sample.noon))
      (Sample.answering "tok" (Ok JNone)) Sample.fresh = [qz] /\
    transmitted (Mutation (CSuspendAllZones Sample.shed Sample.noon))
      (Sample.answering "tok" (Ok JNone)) Sample.fresh = [qa] /\
    arguments qz !! "until" = Some (JStr "1700000000 -300") /\
    arguments qa !! "until" = Some (JStr "1700000000 -300").
Proof.
  apply (suspend_until_forwarded
           (Sample.answering "tok" (Ok JNone)) Sample.fresh
           (Sample.lawn : @Zone Sample.schema)
           (Sample.shed : @Controller Sample.schema)
           (Sample.noon : @datetime Sample.schema) "tok"); reflexivity.
Defined.

(** A call that cannot be built leaves no trace among calls that can. *)
Example unbuildable_call_asks_nothing :
  let st := landed_all
              [Query CGetUser; Query (CGetController 4294967296);
               Mutation (CResumeZone Sample.lawn)]
              (Sample.answering "tok" (Ok JNone)) Sample.fresh in
  token_calls (trace st) = [Ok "tok"; Ok "tok"] /\ opened (trace st) = [0%nat; 1%nat].
Proof. split; vm_compute; reflexivity. Qed.
